(** * The data-poisoning notebooks of cvxpylayers

    A shallow embedding of the two example notebooks
    ([examples/torch/data_poisoning_attack.ipynb], kept as
    [src/unnamed/part_000], and [examples/tf/data_poisoning_attack.ipynb]).

    Conventions of the embedding.
    - Floating-point arrays are modelled over the real numbers [R]
      (idealised arithmetic); a two-dimensional array is the list of its
      rows; a [(1,1)]-shaped array ([b], [lambda1], [lambda2]) is modelled
      by its single entry.
    - The functions of cvxpy, numpy, torch and scikit-learn that the
      notebooks call are not part of the repository.  The arithmetic atoms
      are written out with their documented mathematical meaning; the
      solver behind [CvxpyLayer], the Keras loss object, the random number
      generators and the samplers are parameters of the sections that use
      them. *)

From stdpp Require Import gmap strings list.
From Stdlib Require Import Reals Lra Lia QArith Qround FunctionalExtensionality.

Local Open Scope R_scope.

(** ** Arrays *)

Module Tensor.

Definition matrix : Type := list (list R).

Definition rsum (v : list R) : R := foldr Rplus 0 v.

(** [np.sum]/[cp.sum] without an axis: the sum of all entries. *)
Definition sum_all (M : matrix) : R := rsum (map rsum M).

Definition dot (u v : list R) : R := rsum (zip_with Rmult u v).

Definition col (j : nat) (M : matrix) : list R :=
  map (fun row => nth j row 0) M.

(** [M.T] for an array with [ncols] columns. *)
Definition transpose (ncols : nat) (M : matrix) : matrix :=
  map (fun j => col j M) (seq 0 ncols).

(** [A @ B] where [B] has [p] columns. *)
Definition matmul (p : nat) (A B : matrix) : matrix :=
  map (fun row => map (fun j => dot row (col j B)) (seq 0 p)) A.

(** [M + b] with [b] of shape [(1,1)], broadcast over [M]. *)
Definition badd (M : matrix) (b : R) : matrix :=
  map (map (fun x => x + b)) M.

Definition map_entries (f : R -> R) (M : matrix) : matrix :=
  map (map f) M.

(** Entrywise product and difference of arrays of one shape. *)
Definition multiply (A B : matrix) : matrix := zip_with (zip_with Rmult) A B.
Definition minus (A B : matrix) : matrix := zip_with (zip_with Rminus) A B.

(** [np.zeros((m, k))]. *)
Definition zeros (m k : nat) : matrix := replicate m (replicate k 0).

(** [hstack([A, B])]: the rows of [A] extended by the rows of [B]. *)
Definition hstack (A B : matrix) : matrix := zip_with app A B.

(** The [(k,1)] array holding the entries of [v]. *)
Definition column (v : list R) : matrix := map (fun x => [x]) v.

(** [y[:, np.newaxis]] for an integer label vector, read as reals. *)
Definition newaxis (y : list Z) : matrix := column (map IZR y).

Definition entry (M : matrix) (i j : nat) : R := nth j (nth i M []) 0.

(** The array [M] with entry [(i, j)] replaced by [t]. *)
Definition set_entry (M : matrix) (i j : nat) (t : R) : matrix :=
  match M !! i with
  | Some row => <[i := <[j := t]> row]> M
  | None => M
  end.

End Tensor.

Import Tensor.

(** ** The cvxpy atoms used by the notebooks *)

Module cp.

(** [cp.logistic(x)]: entrywise [log(1 + exp x)]. *)
Definition logistic1 (z : R) : R := ln (1 + exp z).
Definition logistic (M : matrix) : matrix := map_entries logistic1 M.

(** [cp.log_sum_exp(M, axis=0, keepdims=True)] on an array with [c]
    columns: the [(1, c)] array of [log (sum_i exp M[i][j])]. *)
Definition log_sum_exp1 (v : list R) : R := ln (rsum (map exp v)).
Definition log_sum_exp_axis0 (c : nat) (M : matrix) : matrix :=
  [ map (fun j => log_sum_exp1 (col j M)) (seq 0 c) ].

(** [cp.norm(a, 1)] on a two-dimensional [a] is the induced matrix
    1-norm, the largest absolute column sum; on the one-column variable
    of the notebooks it is the sum of the absolute values of [a]. *)
Definition norm1 (a : matrix) : R := sum_all (map_entries Rabs a).

(** [cp.sum_squares(a)]. *)
Definition sum_squares (a : matrix) : R :=
  sum_all (map_entries (fun x => x * x) a).

(** [cp.Maximize(expr)] and [cp.Problem(objective)] over the variables
    [a] (shape [(n,1)]) and [b] (shape [(1,1)]); the notebooks pass no
    constraints. *)
Inductive Objective : Type :=
| Maximize (f : matrix -> R -> R)
| Minimize (f : matrix -> R -> R).

Record problem : Type := mk_problem {
  objective : Objective;
  constraints : list (matrix -> R -> Prop)
}.

Definition Problem (o : Objective) : problem := mk_problem o [].

(** The function to be made large. *)
Definition gain (p : problem) (a : matrix) (b : R) : R :=
  match objective p with
  | Maximize f => f a b
  | Minimize f => - f a b
  end.

Definition feasible (p : problem) (a : matrix) (b : R) : Prop :=
  Forall (fun c => c a b) (constraints p).

(** [(a, b)] is an optimal point of [p], [a] ranging over the arrays of
    shape [(n, 1)]. *)
Definition solves (n : nat) (p : problem) (a : matrix) (b : R) : Prop :=
  (exists v, length v = n /\ a = column v) /\ feasible p a b /\
  forall v' b', length v' = n -> feasible p (column v') b' ->
    gain p (column v') b' <= gain p a b.

End cp.

(** ** The objective as the specification writes it

  [(1/m) * sum_{i=1..m} [ Y_i (x_i^T a + b) - log(1 + exp(x_i^T a + b)) ]
   - 0.1*||a||_1 - 0.1*||a||_2^2], with [x_i] the rows of the training
  array and [m] the number of training points. *)

Module Spec.

Definition bigsum (n : nat) (f : nat -> R) : R := rsum (map f (seq 0 n)).

Definition norm_l1 (a : list R) : R := rsum (map Rabs a).
Definition norm_l2 (a : list R) : R := sqrt (rsum (map (fun x => x ^ 2) a)).

Definition objective (X : matrix) (Y a : list R) (b : R) : R :=
  let m := length X in
  (1 / INR m) *
  bigsum m (fun i =>
    nth i Y 0 * (dot (nth i X []) a + b)
    - ln (1 + exp (dot (nth i X []) a + b)))
  - 0.1 * norm_l1 a - 0.1 * (norm_l2 a) ^ 2.

(** [(a, b)] maximises [f] over [a] in [R^n] and [b] in [R]. *)
Definition maximises (n : nat) (f : list R -> R -> R) (a : list R) (b : R) : Prop :=
  length a = n /\
  forall a' b', length a' = n -> f a' b' <= f a b.



End Spec.


(** ** The loss modules of torch *)

Module nn.

Definition sigmoid (z : R) : R := 1 / (1 + exp (- z)).

Definition mean (v : list R) : R := rsum v / INR (length v).

(** [torch.nn.BCEWithLogitsLoss()(x, y)] with the default reduction
    ['mean']: the mean over [n] of
    [- (y_n * log (sigmoid x_n) + (1 - y_n) * log (1 - sigmoid x_n))]. *)
Definition BCEWithLogitsLoss (x y : list R) : R :=
  mean (zip_with
          (fun xn yn => - (yn * ln (sigmoid xn) + (1 - yn) * ln (1 - sigmoid xn)))
          x y).

(** [t.squeeze()] for [t] of shape [(M, 1)] with [M > 1]: the vector of
    its entries.  (For [M = 1] torch returns a 0-dimensional tensor, which
    the loss rejects against a target of shape [(1,)].) *)
Definition squeeze (t : matrix) : list R := col 0 t.

End nn.

(** ** Gradients

    [Xtrain.grad] after [loss.backward()] and the value of
    [tape.gradient(test_loss, Xtrain)] are, by the contract of automatic
    differentiation, the array of partial derivatives of the recorded
    scalar with respect to the entries of [Xtrain]. *)

Module Autodiff.

(** [g] is the derivative of [F] in entry [(i, j)] at [X]. *)
Definition partial_at (F : matrix -> R) (X : matrix) (i j : nat) (g : R) : Prop :=
  derivable_pt_lim (fun t => F (set_entry X i j t)) (entry X i j) g.

Definition same_shape (A B : matrix) : Prop :=
  Forall2 (fun ra rb : list R => length ra = length rb) A B.

(** [G] is the gradient of [F] at [X]. *)
Definition is_gradient (F : matrix -> R) (X G : matrix) : Prop :=
  same_shape X G /\
  forall i j row, X !! i = Some row -> (j < length row)%nat ->
    partial_at F X i j (entry G i j).


End Autodiff.

(** ** Library calls

    A notebook is a straight-line script: every statement is a call into
    a library, which returns a value or raises.  The script is a tree of
    such calls ([prog]); what a call does is given by a [handler]. *)

Definition exn : Type := string.

Inductive outcome (A : Type) : Type :=
| Ok (a : A)
| Raised (e : exn).

Arguments Ok {A} a.
Arguments Raised {A} e.

(** A numpy array of floats or of integer labels. *)
Inductive ndarray : Type :=
| FloatArr (M : matrix)
| IntArr (y : list Z).

(** A torch tensor is an object on the heap, named by its address. *)
Definition ref : Type := nat.

(** The object built by [CvxpyLayer(prob, parameters, variables)]: the
    problem as a function of the values of its parameters. *)
Definition layer (P : Type) : Type := P -> cp.problem.

(** Options of the matplotlib calls, as the notebooks pass them. *)
Record style : Type := mk_style {
  st_s : option Z;
  st_marker : option string;
  st_fmt : option string;
  st_color : option string;
  st_label : option string
}.

Definition no_style : style := mk_style None None None None None.

Inductive libE : Type -> Type :=
(* random number generators *)
| torch_manual_seed (seed : Z) : libE unit
| tf_random_set_seed (seed : Z) : libE unit
| np_random_seed (seed : Z) : libE unit
(* scikit-learn *)
| make_blobs (n_samples n_features : nat) (centers : matrix) (cluster_std : R)
    : libE (matrix * list Z)
| train_test_split (X : matrix) (y : list Z) (test_size : Q)
    : libE (matrix * matrix * list Z * list Z)
| LogisticRegression_fit (solver : string) (X : matrix) (y : list Z)
    : libE (list R * R)
(* torch *)
| torch_from_numpy (a : ndarray) : libE ref
| requires_grad_ (x : ref) (flag : bool) : libE unit
| tensor_float (x : ref) : libE matrix
| tensor_int (x : ref) : libE (list Z)
| tensor_grad (x : ref) : libE (option matrix)
| grad_numpy (g : option matrix) : libE matrix
| backward (leaves : list ref) (loss : list ndarray -> R) : libE unit
(* tensorflow *)
| tf_constant_float (a : matrix) : libE matrix
| tf_constant_int (a : list Z) : libE (list Z)
| BinaryCrossentropy : libE (list Z -> matrix -> R)
| GradientTape : libE unit
| tape_watch (x : matrix) : libE unit
| tape_gradient (target : matrix -> R) (source : matrix) : libE matrix
(* cvxpylayers *)
| CvxpyLayer {P : Type} (prob : P -> cp.problem) : libE (layer P)
| layer_call_torch (l : layer matrix) (x : ref) : libE (matrix * R)
| layer_call_tf (l : layer (matrix * matrix * matrix)) (x lambda1 lambda2 : matrix)
    : libE (matrix * R)
(* matplotlib *)
| plt_figure : libE unit
| plt_scatter (xs ys : list R) (st : style) : libE unit
| plt_arrow (x y dx dy : R) (st : style) : libE unit
| plt_xlim (lo hi : R) : libE unit
| plt_ylim (lo hi : R) : libE unit
| plt_plot (xs ys : list R) (st : style) : libE unit
| plt_legend : libE unit
| plt_savefig (fname : string) : libE unit
| plt_show : libE unit.

Inductive prog (A : Type) : Type :=
| Ret (a : A)
| Call {X : Type} (e : libE X) (k : X -> prog A).

Arguments Ret {A} a.
Arguments Call {A X} e k.

Fixpoint bind {A B : Type} (p : prog A) (f : A -> prog B) : prog B :=
  match p with
  | Ret a => f a
  | Call e k => Call e (fun x => bind (k x) f)
  end.

Definition call {X : Type} (e : libE X) : prog X := Call e Ret.

Notation "'let*' x ':=' p 'in' q" := (bind p (fun x => q))
  (at level 10, x pattern, p at level 100, q at level 200).
Notation "'exec' p 'in' q" := (bind p (fun _ => q))
  (at level 10, p at level 100, q at level 200).

(** [for x in xs: body(x)]. *)
Fixpoint for_each {A : Type} (xs : list A) (body : A -> prog unit) : prog unit :=
  match xs with
  | [] => Ret tt
  | x :: xs' => exec body x in for_each xs' body
  end.

(** What the libraries do: each call, in a world [W], returns or raises
    and leaves a world. *)
Definition handler (W : Type) : Type :=
  forall X : Type, libE X -> W -> outcome X * W.

(** Running a script.  Python has no handler of its own in these
    notebooks, so the first call that raises ends the run. *)
Fixpoint interp {W A : Type} (h : handler W) (p : prog A) (w : W) : outcome A * W :=
  match p with
  | Ret a => (Ok a, w)
  | Call e k =>
      match h _ e w with
      | (Ok x, w') => interp h (k x) w'
      | (Raised ex, w') => (Raised ex, w')
      end
  end.

(** The phases of a notebook. *)
Inductive phase : Type :=
| Seeding | DataGeneration | TensorAccess | LayerConstruction
| Forward | Gradient | Reference | Plotting.

Definition phase_of {X : Type} (e : libE X) : phase :=
  match e with
  | torch_manual_seed _ | tf_random_set_seed _ | np_random_seed _ => Seeding
  | make_blobs _ _ _ _ | train_test_split _ _ _ => DataGeneration
  | LogisticRegression_fit _ _ _ => Reference
  | torch_from_numpy _ | requires_grad_ _ _ | tensor_float _ | tensor_int _
  | tensor_grad _ | grad_numpy _ | tf_constant_float _ | tf_constant_int _
  | BinaryCrossentropy | GradientTape | tape_watch _ => TensorAccess
  | backward _ _ | tape_gradient _ _ => Gradient
  | CvxpyLayer _ => LayerConstruction
  | layer_call_torch _ _ | layer_call_tf _ _ _ _ => Forward
  | plt_figure | plt_scatter _ _ _ | plt_arrow _ _ _ _ _ | plt_xlim _ _
  | plt_ylim _ _ | plt_plot _ _ _ | plt_legend | plt_savefig _ | plt_show => Plotting
  end.

Global Instance phase_eq_dec : EqDecision phase.
Proof. solve_decision. Defined.

(** The name under which a notebook makes the call. *)
Definition name_of {X : Type} (e : libE X) : string :=
  match e with
  | torch_manual_seed _ => "torch.manual_seed"
  | tf_random_set_seed _ => "tf.random.set_seed"
  | np_random_seed _ => "np.random.seed"
  | make_blobs _ _ _ _ => "make_blobs"
  | train_test_split _ _ _ => "train_test_split"
  | LogisticRegression_fit _ _ _ => "lr.fit"
  | torch_from_numpy _ => "torch.from_numpy"
  | requires_grad_ _ _ => "requires_grad_"
  | tensor_float _ | tensor_int _ => "tensor.numpy"
  | tensor_grad _ => "tensor.grad"
  | grad_numpy _ => "grad.numpy"
  | backward _ _ => "loss.backward"
  | tf_constant_float _ | tf_constant_int _ => "tf.constant"
  | BinaryCrossentropy => "tf.keras.losses.BinaryCrossentropy"
  | GradientTape => "tf.GradientTape"
  | tape_watch _ => "tape.watch"
  | tape_gradient _ _ => "tape.gradient"
  | CvxpyLayer _ => "CvxpyLayer"
  | layer_call_torch _ _ | layer_call_tf _ _ _ _ => "fit_logreg"
  | plt_figure => "plt.figure"
  | plt_scatter _ _ _ => "plt.scatter"
  | plt_arrow _ _ _ _ _ => "plt.arrow"
  | plt_xlim _ _ => "plt.xlim"
  | plt_ylim _ _ => "plt.ylim"
  | plt_plot _ _ _ => "plt.plot"
  | plt_legend => "plt.legend"
  | plt_savefig _ => "plt.savefig"
  | plt_show => "plt.show"
  end.

(** The file a call writes, if any. *)
Definition writes_file {X : Type} (e : libE X) : option string :=
  match e with
  | plt_savefig fname => Some fname
  | _ => None
  end.

(** One executed call and the exception it raised, if any. *)
Inductive issued : Type :=
| Issued {X : Type} (e : libE X) (raised : option exn).

Definition issued_phase (c : issued) : phase :=
  match c with Issued e _ => phase_of e end.

Definition issued_file (c : issued) : option string :=
  match c with Issued e _ => writes_file e end.

Definition issued_name (c : issued) : string :=
  match c with Issued e _ => name_of e end.

Definition issued_raised (c : issued) : option exn :=
  match c with Issued _ r => r end.

(** The calls a run makes, in order (the raising call, if any, is last). *)
Fixpoint calls {W A : Type} (h : handler W) (p : prog A) (w : W) : list issued :=
  match p with
  | Ret _ => []
  | Call e k =>
      match h _ e w with
      | (Ok x, w') => Issued e None :: calls h (k x) w'
      | (Raised ex, w') => [Issued e (Some ex)]
      end
  end.

Definition phases {W A : Type} (h : handler W) (p : prog A) (w : W) : list phase :=
  map issued_phase (calls h p w).

Definition names {W A : Type} (h : handler W) (p : prog A) (w : W) : list string :=
  map issued_name (calls h p w).

(** Some library call that the run of [p] from [w] arrives at raises [ex]
    and leaves the world [w']. *)
Fixpoint call_raises {W A : Type} (h : handler W) (p : prog A) (w : W)
  (ex : exn) (w' : W) : Prop :=
  match p with
  | Ret _ => False
  | Call e k =>
      h _ e w = (Raised ex, w') \/
      exists x w1, h _ e w = (Ok x, w1) /\ call_raises h (k x) w1 ex w'
  end.

(** No call of [p] writes a file, whatever the libraries return. *)
Fixpoint never_writes {A : Type} (p : prog A) : Prop :=
  match p with
  | Ret _ => True
  | Call e k => writes_file e = None /\ forall x, never_writes (k x)
  end.

(** The file written by an executed call: that of a call that returned. *)
Definition written (c : issued) : option string :=
  match issued_raised c with
  | None => issued_file c
  | Some _ => None
  end.

(** The files written by a run. *)
Definition files_written {W A : Type} (h : handler W) (p : prog A) (w : W)
  : list string :=
  omap written (calls h p w).

(** ** Code shared by the two notebooks (cells 2 and 4 repeat it) *)

Module Common.

Definition n : nat := 2.
Definition N : nat := 60.

(** [np.array([[2, 2], [-2, -2]])]. *)
Definition centers : matrix := [[2; 2]; [-2; -2]].
Definition cluster_std : R := 3.
Definition test_size : Q := 1 # 2.

(** [np.linspace(lo, hi, num)]. *)
Definition linspace (lo hi : R) (num : nat) : list R :=
  map (fun k => lo + INR k * ((hi - lo) / INR (num - 1))) (seq 0 num).

(** [hyperplane = lambda x, beta, b: - (b + beta[0] * x) / beta[1]]. *)
Definition hyperplane (x : R) (beta : list R) (b : R) : R :=
  - (b + nth 0 beta 0 * x) / nth 1 beta 0.

(** [y.astype(np.bool)]. *)
Definition astype_bool (y : list Z) : list bool :=
  map (fun v => negb (Z.eqb v 0)) y.

(** [A[mask, j]]: column [j] of the rows selected by the boolean mask. *)
Definition select (A : matrix) (mask : list bool) (j : nat) : list R :=
  col j (omap (fun rb : list R * bool => if rb.2 then Some rb.1 else None)
              (zip A mask)).

End Common.

Import Common.
(** ** The problem declared by the PyTorch notebook (cell 2) *)

Module Torch.
Section Problem.

(** [m = Xtrain.shape[0]], [Y = ytrain.numpy()[:, np.newaxis]]. *)
Variable m : nat.
Variable Y : matrix.

Definition log_likelihood (X a : matrix) (b : R) : R :=
  (1 / INR m) *
  sum_all (minus (multiply Y (badd (matmul 1 X a) b))
                 (cp.logistic (badd (matmul 1 X a) b))).

Definition regularization (a : matrix) : R :=
  - 0.1 * cp.norm1 a - 0.1 * cp.sum_squares a.

(** The argument of [cp.Maximize]. *)
Definition objective (X a : matrix) (b : R) : R :=
  log_likelihood X a b + regularization a.

End Problem.

Section Notebook.

(** The optimal point that the layer computes for a problem. *)
Variable solve : cp.problem -> matrix * R.

Definition prob (m : nat) (Y X : matrix) : cp.problem :=
  cp.Problem (cp.Maximize (objective m Y X)).

(** [Xtest @ a_tch + b_tch]. *)
Definition logits (Xtest : matrix) (theta : matrix * R) : matrix :=
  badd (matmul 1 Xtest theta.1) theta.2.

(** [300 * torch.nn.BCEWithLogitsLoss()((Xtest @ a_tch + b_tch).squeeze(),
    ytest*1.0)]. *)
Definition loss_value (Xtest : matrix) (ytest : list Z) (theta : matrix * R) : R :=
  300 * nn.BCEWithLogitsLoss (nn.squeeze (logits Xtest theta))
                             (map (fun y => IZR y * 1.0) ytest).

(** [loss] as the function of the training array that autograd records. *)
Definition loss (fit_logreg : layer matrix) (Xtest : matrix) (ytest : list Z)
  (Xtrain : matrix) : R :=
  loss_value Xtest ytest (solve (fit_logreg Xtrain)).

Definition loss_of_leaves (fit_logreg : layer matrix) (leaves : list ndarray) : R :=
  match leaves with
  | [FloatArr Xtrain; FloatArr Xtest; IntArr ytest] =>
      loss fit_logreg Xtest ytest Xtrain
  | _ => 0
  end.

(** [Xtrain_grad] is the gradient of [loss] at [Xtrain]. *)
Definition Xtrain_grad (fit_logreg : layer matrix) (Xtest : matrix)
  (ytest : list Z) (Xtrain G : matrix) : Prop :=
  Autodiff.is_gradient (loss fit_logreg Xtest ytest) Xtrain G.

(** Cell 2, first half: seeding and sampling. *)
Definition generate_data : prog (matrix * matrix * list Z * list Z) :=
  exec call (torch_manual_seed 0) in
  exec call (np_random_seed 0) in
  let* (X, y) := call (make_blobs N n centers cluster_std) in
  call (train_test_split X y test_size).

Record env2 : Type := mk_env2 {
  e_Xtrain : ref; e_Xtest : ref; e_ytrain : ref; e_ytest : ref;
  e_m : nat;
  e_fit_logreg : layer matrix
}.

Definition cell2 : prog env2 :=
  let* (Xtrain, Xtest, ytrain, ytest) := generate_data in
  let* Xtrain := call (torch_from_numpy (FloatArr Xtrain)) in
  let* Xtest := call (torch_from_numpy (FloatArr Xtest)) in
  let* ytrain := call (torch_from_numpy (IntArr ytrain)) in
  let* ytest := call (torch_from_numpy (IntArr ytest)) in
  exec call (requires_grad_ Xtrain true) in
  let* Xtrain_v := call (tensor_float Xtrain) in
  let m := length Xtrain_v in
  let* ytrain_v := call (tensor_int ytrain) in
  let Y := newaxis ytrain_v in
  let* fit_logreg := call (CvxpyLayer (prob m Y)) in
  Ret (mk_env2 Xtrain Xtest ytrain ytest m fit_logreg).

Record env3 : Type := mk_env3 {
  e_a_tch : matrix; e_b_tch : R; e_loss : R; e_Xtrain_grad : option matrix
}.

Definition cell3 (e : env2) : prog env3 :=
  let* (a_tch, b_tch) := call (layer_call_torch (e_fit_logreg e) (e_Xtrain e)) in
  let* Xtest_v := call (tensor_float (e_Xtest e)) in
  let* ytest_v := call (tensor_int (e_ytest e)) in
  let loss := loss_value Xtest_v ytest_v (a_tch, b_tch) in
  exec call (backward [e_Xtrain e; e_Xtest e; e_ytest e]
                      (loss_of_leaves (e_fit_logreg e))) in
  let* Xtrain_grad := call (tensor_grad (e_Xtrain e)) in
  Ret (mk_env3 a_tch b_tch loss Xtrain_grad).

Definition cell4 (e2 : env2) (e3 : env3) : prog unit :=
  let* Xtest_v := call (tensor_float (e_Xtest e2)) in
  let* ytest_v := call (tensor_int (e_ytest e2)) in
  let* (coef, intercept) := call (LogisticRegression_fit "lbfgs" Xtest_v ytest_v) in
  let beta_train := col 0 (e_a_tch e3) in
  let beta_test := coef in
  let b_train := e_b_tch e3 in
  let b_test := intercept in
  let* Xtrain_np := call (tensor_float (e_Xtrain e2)) in
  let* Xtrain_grad_np := call (grad_numpy (e_Xtrain_grad e3)) in
  let* ytrain_v := call (tensor_int (e_ytrain e2)) in
  let ytrain_np := astype_bool ytrain_v in
  exec call plt_figure in
  exec call (plt_scatter (select Xtrain_np ytrain_np 0) (select Xtrain_np ytrain_np 1)
               (mk_style (Some 25%Z) (Some "+"%string) None None None)) in
  exec call (plt_scatter (select Xtrain_np (map negb ytrain_np) 0)
                         (select Xtrain_np (map negb ytrain_np) 1)
               (mk_style (Some 25%Z) (Some "*"%string) None None None)) in
  exec for_each (seq 0 (e_m e2)) (fun i =>
         call (plt_arrow (entry Xtrain_np i 0) (entry Xtrain_np i 1)
                         (entry Xtrain_grad_np i 0) (entry Xtrain_grad_np i 1)
                         no_style)) in
  exec call (plt_xlim (-8) 8) in
  exec call (plt_ylim (-8) 8) in
  exec call (plt_plot (linspace (-8) 8 100)
               (map (fun x => hyperplane x beta_train b_train) (linspace (-8) 8 100))
               (mk_style None None (Some "--"%string) (Some "red"%string)
                         (Some "train"%string))) in
  exec call (plt_plot (linspace (-8) 8 100)
               (map (fun x => hyperplane x beta_test b_test) (linspace (-8) 8 100))
               (mk_style None None (Some "-"%string) (Some "blue"%string)
                         (Some "test"%string))) in
  exec call plt_legend in
  exec call (plt_savefig "data_poisoning.pdf") in
  call plt_show.

Definition notebook : prog unit :=
  let* e2 := cell2 in
  let* e3 := cell3 e2 in
  cell4 e2 e3.

End Notebook.
End Torch.

(** ** The problem declared by the TensorFlow notebook (cell 2) *)

Module TF.

(** [lambda1_tf = lambda2_tf = tf.constant([[0.1]])]. *)
Definition lambda1_tf : R := 0.1.
Definition lambda2_tf : R := 0.1.

Section Problem.

Variable m : nat.
Variable Y : matrix.

Definition log_likelihood (X a : matrix) (b : R) : R :=
  (1 / INR m) *
  sum_all (minus (multiply Y (badd (matmul 1 X a) b))
                 (transpose m
                    (cp.log_sum_exp_axis0 m
                       (transpose 2
                          (hstack (zeros m 1) (badd (matmul 1 X a) b)))))).

(** [lambda1], [lambda2] are [cp.Parameter((1, 1), nonneg=True)]. *)
Definition regularization (lambda1 lambda2 : R) (a : matrix) : R :=
  - lambda1 * cp.norm1 a - lambda2 * cp.sum_squares a.

Definition objective (X : matrix) (lambda1 lambda2 : R) (a : matrix) (b : R) : R :=
  log_likelihood X a b + regularization lambda1 lambda2 a.

End Problem.

Section Notebook.

Variable solve : cp.problem -> matrix * R.

(** The problem as a function of the values of [X], [lambda1], [lambda2]. *)
Definition prob (m : nat) (Y : matrix) (params : matrix * matrix * matrix)
  : cp.problem :=
  let '(X, lambda1, lambda2) := params in
  cp.Problem (cp.Maximize (objective m Y X (entry lambda1 0 0) (entry lambda2 0 0))).

(** [Xtest @ slope + intercept]. *)
Definition logits (Xtest : matrix) (theta : matrix * R) : matrix :=
  badd (matmul 1 Xtest theta.1) theta.2.

(** [30 * loss(ytest, Xtest @ slope + intercept)], [loss] being the object
    returned by [tf.keras.losses.BinaryCrossentropy()]. *)
Definition test_loss_value (loss : list Z -> matrix -> R) (Xtest : matrix)
  (ytest : list Z) (theta : matrix * R) : R :=
  30 * loss ytest (logits Xtest theta).

(** [test_loss] as the function of the watched array that the tape records. *)
Definition test_loss (loss : list Z -> matrix -> R)
  (fit_logreg : layer (matrix * matrix * matrix)) (l1 l2 : matrix)
  (Xtest : matrix) (ytest : list Z) (Xtrain : matrix) : R :=
  test_loss_value loss Xtest ytest (solve (fit_logreg (Xtrain, l1, l2))).

(** [Xtrain_grad] is the gradient of [test_loss] at [Xtrain]. *)
Definition Xtrain_grad (loss : list Z -> matrix -> R)
  (fit_logreg : layer (matrix * matrix * matrix)) (l1 l2 : matrix)
  (Xtest : matrix) (ytest : list Z) (Xtrain G : matrix) : Prop :=
  Autodiff.is_gradient (test_loss loss fit_logreg l1 l2 Xtest ytest) Xtrain G.

Definition generate_data : prog (matrix * matrix * list Z * list Z) :=
  exec call (tf_random_set_seed 0) in
  exec call (np_random_seed 0) in
  let* (X, y) := call (make_blobs N n centers cluster_std) in
  call (train_test_split X y test_size).

Record env2 : Type := mk_env2 {
  e_Xtrain : matrix; e_Xtest : matrix; e_ytrain : list Z; e_ytest : list Z;
  e_m : nat;
  e_lambda1_tf : matrix; e_lambda2_tf : matrix;
  e_fit_logreg : layer (matrix * matrix * matrix)
}.

Definition cell2 : prog env2 :=
  let* (Xtrain, Xtest, ytrain, ytest) := generate_data in
  let* Xtrain := call (tf_constant_float Xtrain) in
  let* Xtest := call (tf_constant_float Xtest) in
  let* ytrain := call (tf_constant_int ytrain) in
  let* ytest := call (tf_constant_int ytest) in
  let m := length Xtrain in
  let* lambda1_tf := call (tf_constant_float [[lambda1_tf]]) in
  let* lambda2_tf := call (tf_constant_float [[lambda2_tf]]) in
  let Y := newaxis ytrain in
  let* fit_logreg := call (CvxpyLayer (prob m Y)) in
  Ret (mk_env2 Xtrain Xtest ytrain ytest m lambda1_tf lambda2_tf fit_logreg).

Record env3 : Type := mk_env3 {
  e_slope : matrix; e_intercept : R; e_test_loss : R; e_Xtrain_grad : matrix
}.

Definition cell3 (e : env2) : prog env3 :=
  let* loss := call BinaryCrossentropy in
  exec call GradientTape in
  exec call (tape_watch (e_Xtrain e)) in
  let* (slope, intercept) :=
    call (layer_call_tf (e_fit_logreg e) (e_Xtrain e)
                        (e_lambda1_tf e) (e_lambda2_tf e)) in
  let test_loss_v := test_loss_value loss (e_Xtest e) (e_ytest e) (slope, intercept) in
  let* Xtrain_grad :=
    call (tape_gradient
            (test_loss loss (e_fit_logreg e) (e_lambda1_tf e) (e_lambda2_tf e)
                       (e_Xtest e) (e_ytest e))
            (e_Xtrain e)) in
  Ret (mk_env3 slope intercept test_loss_v Xtrain_grad).

Definition cell4 (e2 : env2) (e3 : env3) : prog unit :=
  let* (coef, intercept) :=
    call (LogisticRegression_fit "lbfgs" (e_Xtest e2) (e_ytest e2)) in
  let beta_train := col 0 (e_slope e3) in
  let beta_test := coef in
  let b_train := e_intercept e3 in
  let b_test := intercept in
  let Xtrain_np := e_Xtrain e2 in
  let Xtrain_grad_np := e_Xtrain_grad e3 in
  let ytrain_np := astype_bool (e_ytrain e2) in
  exec call plt_figure in
  exec call (plt_scatter (select Xtrain_np ytrain_np 0) (select Xtrain_np ytrain_np 1)
               (mk_style (Some 25%Z) None None None None)) in
  exec call (plt_scatter (select Xtrain_np (map negb ytrain_np) 0)
                         (select Xtrain_np (map negb ytrain_np) 1)
               (mk_style (Some 25%Z) None None None None)) in
  exec for_each (seq 0 (e_m e2)) (fun i =>
         call (plt_arrow (entry Xtrain_np i 0) (entry Xtrain_np i 1)
                         (entry Xtrain_grad_np i 0) (entry Xtrain_grad_np i 1)
                         (mk_style None None None (Some "black"%string) None))) in
  exec call (plt_xlim (-8) 8) in
  exec call (plt_ylim (-8) 8) in
  exec call (plt_plot (linspace (-8) 8 100)
               (map (fun x => hyperplane x beta_train b_train) (linspace (-8) 8 100))
               (mk_style None None None (Some "red"%string) (Some "train"%string))) in
  exec call (plt_plot (linspace (-8) 8 100)
               (map (fun x => hyperplane x beta_test b_test) (linspace (-8) 8 100))
               (mk_style None None None (Some "blue"%string) (Some "test"%string))) in
  exec call plt_legend in
  call plt_show.

Definition notebook : prog unit :=
  let* e2 := cell2 in
  let* e3 := cell3 e2 in
  cell4 e2 e3.

End Notebook.
End TF.


(** ** The libraries

    What the notebooks need from the libraries they import.  The pieces
    that are computations of the libraries (sampling, splitting, solving,
    differentiating) are fields of [libraries]; the way they act on the
    state of the Python process is written out in [std]. *)

Record libraries : Type := mk_libraries {
  (** the state of a random number generator, and the state that
      seeding puts it in *)
  rng : Type;
  seeded : Z -> rng;
  (** [sklearn.datasets.make_blobs] and
      [sklearn.model_selection.train_test_split], called without
      [random_state], draw from numpy's global generator *)
  sk_make_blobs :
    nat -> nat -> matrix -> R -> rng -> outcome (matrix * list Z) * rng;
  sk_train_test_split :
    matrix -> list Z -> Q -> rng ->
    outcome (matrix * matrix * list Z * list Z) * rng;
  (** [LogisticRegression(solver=...).fit(X, y)]: [coef_.flatten()] and
      [intercept_[0]] *)
  sk_lr_fit : string -> matrix -> list Z -> outcome (list R * R);
  (** the optimal point a layer returns, and when it raises instead *)
  solve : cp.problem -> matrix * R;
  solver_error : cp.problem -> option exn;
  (** the value of the loss object [tf.keras.losses.BinaryCrossentropy()] *)
  keras_loss : list Z -> matrix -> R;
  (** reverse-mode differentiation: of a scalar in one array, and of a
      scalar in the [k]-th of its leaves *)
  autodiff : (matrix -> R) -> matrix -> matrix;
  autodiff_leaf : (list ndarray -> R) -> list ndarray -> nat -> matrix
}.

(** A torch tensor object. *)
Record tensor : Type := mk_tensor {
  t_data : ndarray;
  t_requires_grad : bool;
  t_grad : option matrix
}.

(** What a figure holds. *)
Inductive artist : Type :=
| Scatter (xs ys : list R) (st : style)
| Arrow (x y dx dy : R) (st : style)
| XLim (lo hi : R)
| YLim (lo hi : R)
| Plot (xs ys : list R) (st : style)
| Legend.

Record world (L : libraries) : Type := mk_world {
  np_rng : rng L;
  torch_rng : rng L;
  tf_rng : rng L;
  heap : list tensor;
  figure : list artist;
  files : gmap string (list artist);
  screen : list (list artist)
}.

Arguments mk_world {L} _ _ _ _ _ _ _.
Arguments np_rng {L} w.
Arguments torch_rng {L} w.
Arguments tf_rng {L} w.
Arguments heap {L} w.
Arguments figure {L} w.
Arguments files {L} w.
Arguments screen {L} w.

Definition set_np_rng {L} (g : rng L) (w : world L) : world L :=
  mk_world g (torch_rng w) (tf_rng w) (heap w) (figure w) (files w) (screen w).
Definition set_torch_rng {L} (g : rng L) (w : world L) : world L :=
  mk_world (np_rng w) g (tf_rng w) (heap w) (figure w) (files w) (screen w).
Definition set_tf_rng {L} (g : rng L) (w : world L) : world L :=
  mk_world (np_rng w) (torch_rng w) g (heap w) (figure w) (files w) (screen w).
Definition set_heap {L} (hp : list tensor) (w : world L) : world L :=
  mk_world (np_rng w) (torch_rng w) (tf_rng w) hp (figure w) (files w) (screen w).
Definition set_figure {L} (fg : list artist) (w : world L) : world L :=
  mk_world (np_rng w) (torch_rng w) (tf_rng w) (heap w) fg (files w) (screen w).
Definition draw {L} (a : artist) (w : world L) : world L :=
  set_figure (figure w ++ [a]) w.
Definition save {L} (fname : string) (w : world L) : world L :=
  mk_world (np_rng w) (torch_rng w) (tf_rng w) (heap w) (figure w)
           (<[fname := figure w]> (files w)) (screen w).
Definition show {L} (w : world L) : world L :=
  mk_world (np_rng w) (torch_rng w) (tf_rng w) (heap w) []
           (files w) (screen w ++ [figure w]).

(** [x.grad] after a backward pass that computed [G] for [x]: gradients
    accumulate. *)
Definition accumulate (old : option matrix) (G : matrix) : option matrix :=
  match old with
  | None => Some G
  | Some G0 => Some (zip_with (zip_with Rplus) G0 G)
  end.

(** The data of the leaves of a graph, if all are live. *)
Definition leaf_data (hp : list tensor) (leaves : list ref) : option (list ndarray) :=
  mapM (fun x => t_data <$> hp !! x) leaves.

(** [loss.backward()]: every leaf that requires a gradient receives one in
    its [.grad]; nothing else of a tensor is written. *)
Fixpoint populate (grad_of : nat -> matrix) (k : nat) (leaves : list ref)
  (hp : list tensor) : list tensor :=
  match leaves with
  | [] => hp
  | x :: rest =>
      let hp' :=
        match hp !! x with
        | Some t =>
            if t_requires_grad t
            then <[x := mk_tensor (t_data t) true
                          (accumulate (t_grad t) (grad_of k))]> hp
            else hp
        | None => hp
        end in
      populate grad_of (S k) rest hp'
  end.

Definition any_requires_grad (hp : list tensor) (leaves : list ref) : bool :=
  existsb (fun x => match hp !! x with
                    | Some t => t_requires_grad t
                    | None => false
                    end) leaves.

(** The libraries acting on the world. *)
Definition std (L : libraries) : handler (world L) :=
  fun X e =>
    match e in libE X return world L -> outcome X * world L with
    | torch_manual_seed s => fun w => (Ok tt, set_torch_rng (seeded L s) w)
    | tf_random_set_seed s => fun w => (Ok tt, set_tf_rng (seeded L s) w)
    | np_random_seed s => fun w => (Ok tt, set_np_rng (seeded L s) w)
    | make_blobs n_samples n_features centers cluster_std => fun w =>
        let (r, g) := sk_make_blobs L n_samples n_features centers cluster_std
                                    (np_rng w) in
        (r, set_np_rng g w)
    | train_test_split X0 y test_size => fun w =>
        let (r, g) := sk_train_test_split L X0 y test_size (np_rng w) in
        (r, set_np_rng g w)
    | LogisticRegression_fit solver X0 y => fun w =>
        (sk_lr_fit L solver X0 y, w)
    | torch_from_numpy a => fun w =>
        (Ok (length (heap w)), set_heap (heap w ++ [mk_tensor a false None]) w)
    | requires_grad_ x flag => fun w =>
        match heap w !! x with
        | Some (mk_tensor (FloatArr M) _ g) =>
            (Ok tt, set_heap (<[x := mk_tensor (FloatArr M) flag g]> (heap w)) w)
        | Some (mk_tensor (IntArr _) _ _) =>
            (Raised "only Tensors of floating point dtype can require gradients", w)
        | None => (Raised "dead reference", w)
        end
    | tensor_float x => fun w =>
        match heap w !! x with
        | Some (mk_tensor (FloatArr M) _ _) => (Ok M, w)
        | _ => (Raised "not a float tensor", w)
        end
    | tensor_int x => fun w =>
        match heap w !! x with
        | Some (mk_tensor (IntArr y) _ _) => (Ok y, w)
        | _ => (Raised "not an integer tensor", w)
        end
    | tensor_grad x => fun w =>
        match heap w !! x with
        | Some t => (Ok (t_grad t), w)
        | None => (Raised "dead reference", w)
        end
    | grad_numpy g => fun w =>
        match g with
        | Some G => (Ok G, w)
        | None => (Raised "'NoneType' object has no attribute 'numpy'", w)
        end
    | backward leaves loss => fun w =>
        match leaf_data (heap w) leaves with
        | Some ds =>
            if any_requires_grad (heap w) leaves
            then (Ok tt,
                  set_heap (populate (autodiff_leaf L loss ds) 0 leaves (heap w)) w)
            else (Raised "element 0 of tensors does not require grad", w)
        | None => (Raised "dead reference", w)
        end
    | tf_constant_float a => fun w => (Ok a, w)
    | tf_constant_int a => fun w => (Ok a, w)
    | BinaryCrossentropy => fun w => (Ok (keras_loss L), w)
    | GradientTape => fun w => (Ok tt, w)
    | tape_watch _ => fun w => (Ok tt, w)
    | tape_gradient target source => fun w => (Ok (autodiff L target source), w)
    | CvxpyLayer prob => fun w => (Ok prob, w)
    | layer_call_torch l x => fun w =>
        match heap w !! x with
        | Some (mk_tensor (FloatArr M) _ _) =>
            match solver_error L (l M) with
            | Some ex => (Raised ex, w)
            | None => (Ok (solve L (l M)), w)
            end
        | _ => (Raised "not a float tensor", w)
        end
    | layer_call_tf l x l1 l2 => fun w =>
        match solver_error L (l (x, l1, l2)) with
        | Some ex => (Raised ex, w)
        | None => (Ok (solve L (l (x, l1, l2))), w)
        end
    | plt_figure => fun w => (Ok tt, set_figure [] w)
    | plt_scatter xs ys st => fun w => (Ok tt, draw (Scatter xs ys st) w)
    | plt_arrow x y dx dy st => fun w => (Ok tt, draw (Arrow x y dx dy st) w)
    | plt_xlim lo hi => fun w => (Ok tt, draw (XLim lo hi) w)
    | plt_ylim lo hi => fun w => (Ok tt, draw (YLim lo hi) w)
    | plt_plot xs ys st => fun w => (Ok tt, draw (Plot xs ys st) w)
    | plt_legend => fun w => (Ok tt, draw Legend w)
    | plt_savefig fname => fun w => (Ok tt, save fname w)
    | plt_show => fun w => (Ok tt, show w)
    end.

(** ** What the notebooks rely on from scikit-learn

    [train_test_split] with a fractional [test_size] gives the test part
    [ceil(test_size * n)] of the [n] rows and the training part the rest;
    [make_blobs(n_samples, n_features, centers, cluster_std)] returns
    [n_samples] points of [n_features] coordinates, each drawn from the
    Gaussian blob of its label, together with the labels. *)

Module sklearn.

Definition n_test (n : nat) (test_size : Q) : nat :=
  Z.to_nat (Qceiling (test_size * inject_Z (Z.of_nat n))).

Definition n_train (n : nat) (test_size : Q) : nat := n - n_test n test_size.

Definition make_blobs_shape (L : libraries) : Prop :=
  forall n_samples n_features centers cluster_std g X y g',
    sk_make_blobs L n_samples n_features centers cluster_std g = (Ok (X, y), g') ->
    length X = n_samples /\ length y = n_samples /\
    Forall (fun row : list R => length row = n_features) X.

Definition train_test_split_shape (L : libraries) : Prop :=
  forall X y test_size g Xtrain Xtest ytrain ytest g',
    sk_train_test_split L X y test_size g
      = (Ok (Xtrain, Xtest, ytrain, ytest), g') ->
    length y = length X ->
    length Xtrain = n_train (length X) test_size /\
    length Xtest = n_test (length X) test_size /\
    length ytrain = length Xtrain /\ length ytest = length Xtest.

End sklearn.

(** ** A small instance of the libraries

    Stand-ins for the absent libraries, used to run the notebooks on
    concrete data: points placed at the centres, a split that cuts the
    array in two, and a layer that returns a point computed from the
    objective (not its maximiser). *)

Module Toy.

Definition solve (p : cp.problem) : matrix * R :=
  (column [cp.gain p (column [1; 0]) 0; 0], 0).

(** A loss object that computes the mean logistic loss of its logits,
    as [BCEWithLogitsLoss] does. *)
Definition keras_loss (y_true : list Z) (y_pred : matrix) : R :=
  nn.BCEWithLogitsLoss (nn.squeeze y_pred) (map (fun y => IZR y * 1.0) y_true).

Definition blobs (n_samples n_features : nat) (centers : matrix) (std : R) (g : Z)
  : outcome (matrix * list Z) * Z :=
  (Ok (map (fun i => map (fun j => nth j (nth (i mod 2) centers []) 0)
                         (seq 0 n_features))
           (seq 0 n_samples),
       map (fun i => Z.of_nat (i mod 2)) (seq 0 n_samples)),
   Z.succ g).

Definition split (X : matrix) (y : list Z) (test_size : Q) (g : Z)
  : outcome (matrix * matrix * list Z * list Z) * Z :=
  let k := sklearn.n_train (length X) test_size in
  if (sklearn.n_test (length X) test_size <=? length X)%nat
  then (Ok (take k X, drop k X, take k y, drop k y), Z.succ g)
  else (Raised "ValueError", g).

Definition lr_fit (solver : string) (X : matrix) (y : list Z)
  : outcome (list R * R) := Ok ([1; 1], 0).

Definition zero_like (X : matrix) : matrix := map (map (fun _ : R => 0)) X.

Definition lib : libraries :=
  mk_libraries Z (fun s => s) blobs split lr_fit solve (fun _ => None) keras_loss
    (fun _ X => zero_like X)
    (fun _ ds k => match ds !! k with
                   | Some (FloatArr M) => zero_like M
                   | _ => []
                   end).

(** The same libraries with a solver that fails. *)
Definition failing_lib : libraries :=
  mk_libraries Z (fun s => s) blobs split lr_fit solve
    (fun _ => Some "SolverError"%string) keras_loss
    (fun _ X => zero_like X)
    (fun _ ds k => match ds !! k with
                   | Some (FloatArr M) => zero_like M
                   | _ => []
                   end).

Definition w0 : world lib := @mk_world lib 7%Z 7%Z 7%Z [] [] ∅ [].

Definition w0_failing : world failing_lib :=
  @mk_world failing_lib 7%Z 7%Z 7%Z [] [] ∅ [].

(** One training point and two test points. *)
Definition Xtrain : matrix := [[0; 0]].
Definition ytrain : list Z := [0%Z].
Definition Xtest : matrix := [[1; 0]; [1; 0]].
Definition ytest : list Z := [0%Z; 0%Z].


End Toy.

(** ** The calls of a complete run

    [m] is the number of rows of the training array. *)

Module Expected.

Definition torch_names (m : nat) : list string :=
  [ "torch.manual_seed"; "np.random.seed"; "make_blobs"; "train_test_split";
    "torch.from_numpy"; "torch.from_numpy"; "torch.from_numpy"; "torch.from_numpy";
    "requires_grad_"; "tensor.numpy"; "tensor.numpy"; "CvxpyLayer";
    "fit_logreg"; "tensor.numpy"; "tensor.numpy"; "loss.backward"; "tensor.grad";
    "tensor.numpy"; "tensor.numpy"; "lr.fit"; "tensor.numpy"; "grad.numpy";
    "tensor.numpy"; "plt.figure"; "plt.scatter"; "plt.scatter" ]%string
  ++ replicate m "plt.arrow"%string
  ++ [ "plt.xlim"; "plt.ylim"; "plt.plot"; "plt.plot"; "plt.legend";
       "plt.savefig"; "plt.show" ]%string.

Definition torch_phases (m : nat) : list phase :=
  [ Seeding; Seeding; DataGeneration; DataGeneration;
    TensorAccess; TensorAccess; TensorAccess; TensorAccess;
    TensorAccess; TensorAccess; TensorAccess; LayerConstruction;
    Forward; TensorAccess; TensorAccess; Gradient; TensorAccess;
    TensorAccess; TensorAccess; Reference; TensorAccess; TensorAccess;
    TensorAccess; Plotting; Plotting; Plotting ]
  ++ replicate m Plotting
  ++ [ Plotting; Plotting; Plotting; Plotting; Plotting; Plotting; Plotting ].

Definition tf_names (m : nat) : list string :=
  [ "tf.random.set_seed"; "np.random.seed"; "make_blobs"; "train_test_split";
    "tf.constant"; "tf.constant"; "tf.constant"; "tf.constant";
    "tf.constant"; "tf.constant"; "CvxpyLayer";
    "tf.keras.losses.BinaryCrossentropy"; "tf.GradientTape"; "tape.watch";
    "fit_logreg"; "tape.gradient";
    "lr.fit"; "plt.figure"; "plt.scatter"; "plt.scatter" ]%string
  ++ replicate m "plt.arrow"%string
  ++ [ "plt.xlim"; "plt.ylim"; "plt.plot"; "plt.plot"; "plt.legend";
       "plt.show" ]%string.

Definition tf_phases (m : nat) : list phase :=
  [ Seeding; Seeding; DataGeneration; DataGeneration;
    TensorAccess; TensorAccess; TensorAccess; TensorAccess;
    TensorAccess; TensorAccess; LayerConstruction;
    TensorAccess; TensorAccess; TensorAccess;
    Forward; Gradient;
    Reference; Plotting; Plotting; Plotting ]
  ++ replicate m Plotting
  ++ [ Plotting; Plotting; Plotting; Plotting; Plotting; Plotting ].

(** How often a call is made. *)
Definition occurrences (x : string) (l : list string) : nat :=
  count_occ String.string_dec l x.

(** The library calls of which a notebook speaks when it says that it
    generates the data, calls the layer, differentiates and plots. *)
Definition count (x : phase) (l : list phase) : nat := count_occ phase_eq_dec l x.

(** [l] runs through its data generation before its one forward call,
    that before its one gradient computation, and that before all its
    plotting. *)
Definition linear (l : list phase) : Prop :=
  exists l0 l1 l2 l3,
    l = l0 ++ [Forward] ++ l1 ++ [Gradient] ++ l2 ++ l3
    /\ (count DataGeneration l0 = 2)%nat /\ (count Plotting l0 = 0)%nat
    /\ (count Forward l0 = 0)%nat /\ (count Gradient l0 = 0)%nat
    /\ Forall (fun x => x = TensorAccess) l1
    /\ Forall (fun x => x = TensorAccess \/ x = Reference) l2
    /\ l3 <> [] /\ Forall (fun x => x = Plotting) l3.

End Expected.

(** The arrays held by the four tensors that cell 2 of the PyTorch
    notebook binds to [Xtrain], [Xtest], [ytrain], [ytest]. *)
Definition torch_arrays {L : libraries} (r : outcome Torch.env2 * world L)
  : outcome (list (option ndarray)) :=
  match r with
  | (Ok e, w) =>
      Ok (map (fun x => t_data <$> heap w !! x)
              [Torch.e_Xtrain e; Torch.e_Xtest e; Torch.e_ytrain e; Torch.e_ytest e])
  | (Raised ex, _) => Raised ex
  end.

(** ** Notions used to state further properties of the notebooks *)

Module Props.

(** The point [t * u + (1 - t) * v] on the segment between two vectors. *)
Definition mix (t : R) (u v : list R) : list R :=
  zip_with (fun x y => t * x + (1 - t) * y) u v.

(** Labels as [make_blobs] gives them for two centres: 0 or 1. *)
Definition binary (y : list Z) : Prop :=
  Forall (fun v => v = 0%Z \/ v = 1%Z) y.

End Props.

(** ** The chart that cell 4 draws *)

Module Chart.

(** [np.linspace(-8, 8, 100)]. *)
Definition grid : list R := linspace (-8) 8 100.

(** The line of the classifier [(beta, b)] over the grid. *)
Definition line (beta : list R) (b : R) (st : style) : artist :=
  Plot grid (map (fun x => hyperplane x beta b) grid) st.

(** One arrow per training point, from the point along its gradient. *)
Definition arrows (X G : matrix) (st : style) : list artist :=
  map (fun i => Arrow (entry X i 0) (entry X i 1) (entry G i 0) (entry G i 1) st)
      (seq 0 (length X)).

Definition scatters (X : matrix) (y : list Z) (st1 st0 : style) : list artist :=
  [ Scatter (select X (astype_bool y) 0) (select X (astype_bool y) 1) st1;
    Scatter (select X (map negb (astype_bool y)) 0)
            (select X (map negb (astype_bool y)) 1) st0 ].

(** The figure of the PyTorch notebook. *)
Definition torch (Xtrain : matrix) (ytrain : list Z) (G : matrix)
  (theta : matrix * R) (reference : list R * R) : list artist :=
  scatters Xtrain ytrain
    (mk_style (Some 25%Z) (Some "+"%string) None None None)
    (mk_style (Some 25%Z) (Some "*"%string) None None None)
  ++ arrows Xtrain G no_style
  ++ [ XLim (-8) 8; YLim (-8) 8;
       line (col 0 theta.1) theta.2
            (mk_style None None (Some "--"%string) (Some "red"%string)
                      (Some "train"%string));
       line reference.1 reference.2
            (mk_style None None (Some "-"%string) (Some "blue"%string)
                      (Some "test"%string));
       Legend ].

(** The figure of the TensorFlow notebook. *)
Definition tf (Xtrain : matrix) (ytrain : list Z) (G : matrix)
  (theta : matrix * R) (reference : list R * R) : list artist :=
  scatters Xtrain ytrain
    (mk_style (Some 25%Z) None None None None)
    (mk_style (Some 25%Z) None None None None)
  ++ arrows Xtrain G (mk_style None None None (Some "black"%string) None)
  ++ [ XLim (-8) 8; YLim (-8) 8;
       line (col 0 theta.1) theta.2
            (mk_style None None None (Some "red"%string) (Some "train"%string));
       line reference.1 reference.2
            (mk_style None None None (Some "blue"%string) (Some "test"%string));
       Legend ].

(** The tensors of the PyTorch notebook after cell 2, [g] being the
    [.grad] of [Xtrain]. *)
Definition tensors (Xtr Xte : matrix) (ytr yte : list Z) (g : option matrix)
  : list tensor :=
  [ mk_tensor (FloatArr Xtr) true g;
    mk_tensor (FloatArr Xte) false None;
    mk_tensor (IntArr ytr) false None;
    mk_tensor (IntArr yte) false None ].

(** The gradient that [loss.backward()] stores in [Xtrain.grad]. *)
Definition torch_grad (L : libraries) (Xtr Xte : matrix) (ytr yte : list Z) : matrix :=
  autodiff_leaf L
    (Torch.loss_of_leaves (solve L) (Torch.prob (length Xtr) (newaxis ytr)))
    [FloatArr Xtr; FloatArr Xte; IntArr yte] 0.

(** The gradient that [tape.gradient] returns. *)
Definition tf_grad (L : libraries) (Xtr Xte : matrix) (ytr yte : list Z) : matrix :=
  autodiff L
    (TF.test_loss (solve L) (keras_loss L) (TF.prob (length Xtr) (newaxis ytr))
       [[TF.lambda1_tf]] [[TF.lambda2_tf]] Xte yte)
    Xtr.


(** The figure a run of a notebook ends by showing, if it returns. *)
Definition shown {L : libraries} (r : outcome unit * world L)
  : option (list artist) :=
  match r.1 with
  | Ok _ => last (screen r.2)
  | Raised _ => None
  end.

End Chart.
(** ** Helper lemmas on arrays *)

Lemma map_nth_seq {A B : Type} (f : A -> B) (d : A) (l : list A) :
  map (fun j => f (nth j l d)) (seq 0 (length l)) = map f l.
Proof.
  induction l as [|x l IH]; [reflexivity|].
  cbn [length seq map nth]. f_equal.
  rewrite <- seq_shift, map_map. exact IH.
Qed.

Lemma matmul_badd_column (X a : matrix) (b : R) :
  badd (matmul 1 X a) b = column (map (fun row => dot row (col 0 a) + b) X).
Proof.
  unfold badd, matmul, column. rewrite !map_map. reflexivity.
Qed.

Lemma hstack_zeros_column (zs : list R) :
  hstack (zeros (length zs) 1) (column zs) = map (fun z => [0; z]) zs.
Proof.
  unfold hstack, zeros, column.
  induction zs as [|z zs IH]; [reflexivity|].
  cbn. f_equal. exact IH.
Qed.

Lemma log_sum_exp_pair (z : R) : cp.log_sum_exp1 [0; z] = cp.logistic1 z.
Proof.
  unfold cp.log_sum_exp1, cp.logistic1, rsum. cbn.
  rewrite exp_0. f_equal. lra.
Qed.

Lemma nth_map_const {A : Type} (c : R) (l : list A) (j : nat) :
  nth j (map (fun _ => c) l) c = c.
Proof.
  revert j. induction l as [|x l IH]; intros [|j]; cbn; auto.
Qed.

Lemma log_sum_exp_columns (zs : list R) :
  map (fun j => cp.log_sum_exp1 (col j (transpose 2 (map (fun z => [0; z]) zs))))
      (seq 0 (length zs))
  = map cp.logistic1 zs.
Proof.
  rewrite <- (map_nth_seq cp.logistic1 0 zs).
  apply map_ext_in. intros j Hj. apply in_seq in Hj.
  unfold transpose, col. cbn [seq map]. rewrite !map_map. cbn [nth].
  rewrite <- log_sum_exp_pair. f_equal. f_equal.
  - apply nth_map_const.
  - f_equal. rewrite (map_nth (fun x : R => x)). reflexivity.
Qed.

(** The TensorFlow notebook's [log_sum_exp] expression is the PyTorch
    notebook's [cp.logistic] expression. *)
Lemma log_sum_exp_stack_logistic (zs : list R) :
  transpose (length zs)
    (cp.log_sum_exp_axis0 (length zs)
       (transpose 2 (hstack (zeros (length zs) 1) (column zs))))
  = cp.logistic (column zs).
Proof.
  rewrite hstack_zeros_column.
  unfold cp.log_sum_exp_axis0. rewrite log_sum_exp_columns.
  unfold transpose, col. cbn [map].
  replace (length zs) with (length (map cp.logistic1 zs)) by apply length_map.
  rewrite (map_nth_seq (fun r => [r]) 0).
  unfold cp.logistic, map_entries, column. rewrite !map_map. reflexivity.
Qed.

Lemma tf_log_likelihood_torch (m : nat) (Y X a : matrix) (b : R) :
  length X = m ->
  TF.log_likelihood m Y X a b = Torch.log_likelihood m Y X a b.
Proof.
  intros Hm. unfold TF.log_likelihood, Torch.log_likelihood.
  rewrite matmul_badd_column.
  set (zs := map (fun row => dot row (col 0 a) + b) X).
  assert (Hz : length zs = m) by (unfold zs; rewrite length_map; exact Hm).
  rewrite <- Hz, log_sum_exp_stack_logistic. reflexivity.
Qed.

Lemma tf_objective_torch (m : nat) (Y X a : matrix) (b : R) :
  length X = m ->
  TF.objective m Y X TF.lambda1_tf TF.lambda2_tf a b = Torch.objective m Y X a b.
Proof.
  intros Hm. unfold TF.objective, Torch.objective.
  rewrite (tf_log_likelihood_torch m Y X a b Hm).
  unfold TF.regularization, Torch.regularization, TF.lambda1_tf, TF.lambda2_tf.
  lra.
Qed.

Lemma rsum_nil : rsum [] = 0.
Proof. reflexivity. Qed.

Lemma rsum_cons (x : R) (v : list R) : rsum (x :: v) = x + rsum v.
Proof. reflexivity. Qed.

Lemma nth_map_lt {A : Type} (f : A -> R) (l : list A) (d : A) (i : nat) :
  (i < length l)%nat -> nth i (map f l) 0 = f (nth i l d).
Proof.
  intros Hi. rewrite (nth_indep (map f l) 0 (f d)) by (rewrite length_map; exact Hi).
  apply map_nth.
Qed.

Lemma col0_column (v : list R) : col 0 (column v) = v.
Proof.
  unfold col, column. rewrite map_map. cbn. apply map_id.
Qed.

Lemma rsum_zip_seq (f : R -> R -> R) (ys zs : list R) :
  length ys = length zs ->
  rsum (zip_with f ys zs)
  = Spec.bigsum (length zs) (fun i => f (nth i ys 0) (nth i zs 0)).
Proof.
  unfold Spec.bigsum. revert ys.
  induction zs as [|z zs IH]; intros [|y ys] Hlen; try discriminate; [reflexivity|].
  cbn [zip_with length seq map rsum foldr nth].
  f_equal. rewrite <- seq_shift, map_map.
  apply IH. now inversion Hlen.
Qed.

Lemma sum_all_columns (ys zs : list R) :
  sum_all (minus (multiply (column ys) (column zs)) (cp.logistic (column zs)))
  = rsum (zip_with (fun y z => y * z - cp.logistic1 z) ys zs).
Proof.
  unfold sum_all, minus, multiply, cp.logistic, map_entries, column.
  revert ys. induction zs as [|z zs IH]; intros [|y ys]; try reflexivity.
  cbn [map zip_with]. rewrite !rsum_cons, rsum_nil, <- IH. lra.
Qed.

Lemma sum_all_column_map (f : R -> R) (v : list R) :
  sum_all (map_entries f (column v)) = rsum (map f v).
Proof.
  unfold sum_all, map_entries, column.
  induction v as [|x v IH]; [reflexivity|].
  cbn [map]. rewrite !rsum_cons, rsum_nil, IH. lra.
Qed.

Lemma rsum_squares_nonneg (v : list R) : 0 <= rsum (map (fun x => x ^ 2) v).
Proof.
  induction v as [|x v IH]; cbn [map]; [rewrite rsum_nil; lra|].
  rewrite rsum_cons. pose proof (pow2_ge_0 x). lra.
Qed.

Lemma norm_l2_squared (v : list R) :
  (Spec.norm_l2 v) ^ 2 = cp.sum_squares (column v).
Proof.
  unfold Spec.norm_l2, cp.sum_squares.
  rewrite sum_all_column_map.
  rewrite <- Rsqr_pow2, Rsqr_sqrt by apply rsum_squares_nonneg.
  f_equal. apply map_ext. intros x. ring.
Qed.

(** The PyTorch objective, read on the entries of [a]. *)
Lemma torch_objective_spec (X : matrix) (ytrain : list Z) (a : list R) (b : R) :
  length ytrain = length X ->
  Torch.objective (length X) (newaxis ytrain) X (column a) b
  = Spec.objective X (map IZR ytrain) a b.
Proof.
  intros Hlen.
  unfold Torch.objective, Torch.log_likelihood, Torch.regularization, Spec.objective.
  cbv zeta.
  rewrite matmul_badd_column, col0_column. unfold newaxis.
  rewrite sum_all_columns, rsum_zip_seq by (rewrite !length_map; exact Hlen).
  rewrite norm_l2_squared. unfold cp.norm1. rewrite sum_all_column_map.
  rewrite length_map. unfold Spec.norm_l1.
  assert (Hsum :
    Spec.bigsum (length X) (fun i =>
      nth i (map IZR ytrain) 0 * nth i (map (fun row => dot row a + b) X) 0
      - cp.logistic1 (nth i (map (fun row => dot row a + b) X) 0))
    = Spec.bigsum (length X) (fun i =>
      nth i (map IZR ytrain) 0 * (dot (nth i X []) a + b)
      - ln (1 + exp (dot (nth i X []) a + b)))).
  { unfold Spec.bigsum. f_equal. apply map_ext_in. intros i Hi.
    apply in_seq in Hi.
    rewrite (nth_map_lt (fun row => dot row a + b) X [] i) by lia.
    reflexivity. }
  rewrite Hsum. lra.
Qed.

(** ** The losses *)










(** ** Gradients *)










(** ** The stand-in instance *)








(** ** The two problems are one problem *)

Lemma tf_prob_gain (m : nat) (Y X a : matrix) (b : R) :
  length X = m ->
  cp.gain (TF.prob m Y (X, [[TF.lambda1_tf]], [[TF.lambda2_tf]])) a b
  = cp.gain (Torch.prob m Y X) a b.
Proof.
  intros Hm. unfold TF.prob, Torch.prob, cp.Problem, cp.gain. cbn [cp.objective].
  unfold entry. cbn [nth]. apply tf_objective_torch, Hm.
Qed.

Lemma tf_prob_torch_prob (m : nat) (Y X : matrix) :
  length X = m ->
  TF.prob m Y (X, [[TF.lambda1_tf]], [[TF.lambda2_tf]]) = Torch.prob m Y X.
Proof.
  intros Hm. unfold TF.prob, Torch.prob, cp.Problem. f_equal. f_equal.
  apply functional_extensionality. intros a.
  apply functional_extensionality. intros b.
  unfold entry. cbn [nth]. apply tf_objective_torch, Hm.
Qed.

Lemma column_inj (u v : list R) : column u = column v -> u = v.
Proof.
  unfold column. revert v.
  induction u as [|x u IH]; intros [|y v] H; try discriminate; [reflexivity|].
  cbn in H. injection H as -> H. f_equal. apply IH, H.
Qed.

(** An unconstrained [Maximize] problem is solved by the maximisers of
    its objective. *)
Lemma solves_maximises (n : nat) (g : matrix -> R -> R) (f : list R -> R -> R)
  (a : list R) (b : R) :
  (forall v c, g (column v) c = f v c) ->
  cp.solves n (cp.Problem (cp.Maximize g)) (column a) b <-> Spec.maximises n f a b.
Proof.
  intros Hgf. unfold cp.solves, Spec.maximises, cp.feasible, cp.gain, cp.Problem.
  cbn [cp.objective cp.constraints]. split.
  - intros [[v [Hv Hav]] [_ Hmax]]. apply column_inj in Hav. subst v.
    split; [exact Hv|]. intros a' b' Ha'. rewrite <- !Hgf.
    apply Hmax; [exact Ha'|constructor].
  - intros [Ha Hmax]. split; [exists a; auto|]. split; [constructor|].
    intros v' b' Hv' _. rewrite !Hgf. apply Hmax, Hv'.
Qed.

(** C8. With the supplied values [lambda1 = lambda2 = 0.1], the objective
    of the TensorFlow notebook (log-likelihood through [cp.log_sum_exp] of
    the stacked pair [[0, X a + b]], non-negative parameters as weights) is
    the same function of [(a, b)] as the objective of the PyTorch notebook
    ([cp.logistic], weights [0.1] written in), because
    [log_sum_exp(0, z) = log(1 + exp z) = logistic z] for every real [z]. *)
Theorem C8_tf_objective_is_torch_objective :
  forall (Xtrain : matrix) (ytrain : list Z) (a : matrix) (b : R),
    cp.gain (TF.prob (length Xtrain) (newaxis ytrain)
                     (Xtrain, [[TF.lambda1_tf]], [[TF.lambda2_tf]])) a b
    = cp.gain (Torch.prob (length Xtrain) (newaxis ytrain) Xtrain) a b
    /\ TF.lambda1_tf = 0.1 /\ TF.lambda2_tf = 0.1
    /\ 0 <= TF.lambda1_tf /\ 0 <= TF.lambda2_tf
    /\ forall z : R,
         cp.log_sum_exp1 [0; z] = ln (1 + exp z) /\ ln (1 + exp z) = cp.logistic1 z.
Proof.
  intros Xtrain ytrain a b. split; [apply tf_prob_gain; reflexivity|].
  unfold TF.lambda1_tf, TF.lambda2_tf.
  repeat split; try reflexivity; try lra.
  apply log_sum_exp_pair.
Qed.

(** C3. The problem handed to [CvxpyLayer] in each notebook is the
    maximum-likelihood problem of logistic regression with elastic-net
    regularisation: an unconstrained maximisation over [(a, b)] of
    [(1/m) sum_i [Y_i (x_i^T a + b) - log(1 + exp(x_i^T a + b))]
     - 0.1 ||a||_1 - 0.1 ||a||_2^2], [m] the number of training points. *)
Theorem C3_problem_is_regularised_logistic_regression :
  forall (Xtrain : matrix) (ytrain : list Z) (n : nat) (a : list R) (b : R),
    length ytrain = length Xtrain ->
    let m := length Xtrain in
    let Y := newaxis ytrain in
    let p_torch := Torch.prob m Y Xtrain in
    let p_tf := TF.prob m Y (Xtrain, [[TF.lambda1_tf]], [[TF.lambda2_tf]]) in
    cp.constraints p_torch = [] /\ cp.constraints p_tf = []
    /\ cp.gain p_torch (column a) b = Spec.objective Xtrain (map IZR ytrain) a b
    /\ cp.gain p_tf (column a) b = Spec.objective Xtrain (map IZR ytrain) a b
    /\ (cp.solves n p_torch (column a) b
        <-> Spec.maximises n (Spec.objective Xtrain (map IZR ytrain)) a b)
    /\ (cp.solves n p_tf (column a) b
        <-> Spec.maximises n (Spec.objective Xtrain (map IZR ytrain)) a b).
Proof.
  intros Xtrain ytrain n a b Hlen m Y p_torch p_tf.
  assert (Ht : forall v c,
             Torch.objective m Y Xtrain v c = cp.gain p_torch v c) by reflexivity.
  assert (Hg : forall v c,
             cp.gain p_torch (column v) c
             = Spec.objective Xtrain (map IZR ytrain) v c).
  { intros v c. rewrite <- Ht. apply torch_objective_spec, Hlen. }
  assert (Heq : p_tf = p_torch) by (apply tf_prob_torch_prob; reflexivity).
  rewrite Heq.
  split; [reflexivity|]. split; [reflexivity|].
  split; [apply Hg|]. split; [apply Hg|].
  split; apply (solves_maximises n (Torch.objective m Y Xtrain)); exact Hg.
Qed.

(** The hypothesis of C3 is met by a training set of one point. *)
Lemma C3_witness :
  length [1%Z] = length [[1; 2]]
  /\ cp.gain (Torch.prob 1 (newaxis [1%Z]) [[1; 2]]) (column [0; 0]) 0
     = Spec.objective [[1; 2]] (map IZR [1%Z]) [0; 0] 0.
Proof.
  split; [reflexivity|].
  exact (proj1 (proj2 (proj2
    (C3_problem_is_regularised_logistic_regression
       [[1; 2]] [1%Z] 2 [0; 0] 0 eq_refl)))).
Defined.

(** ** What the two notebooks differentiate *)












(** ** Running scripts *)

Section Runs.

Context {W : Type} (h : handler W).

Lemma interp_bind {A B : Type} (p : prog A) (f : A -> prog B) (w : W) :
  interp h (bind p f) w
  = match interp h p w with
    | (Ok a, w1) => interp h (f a) w1
    | (Raised ex, w1) => (Raised ex, w1)
    end.
Proof.
  revert w. induction p as [a|X e k IH]; intros w; cbn [bind interp].
  - reflexivity.
  - destruct (h X e w) as [[x|ex] w1]; [apply IH|reflexivity].
Qed.

Lemma calls_bind {A B : Type} (p : prog A) (f : A -> prog B) (w : W) :
  calls h (bind p f) w
  = calls h p w ++ match interp h p w with
                   | (Ok a, w1) => calls h (f a) w1
                   | (Raised _, _) => []
                   end.
Proof.
  revert w. induction p as [a|X e k IH]; intros w; cbn [bind interp calls].
  - reflexivity.
  - destruct (h X e w) as [[x|ex] w1]; [|reflexivity].
    cbn [app]. f_equal. apply IH.
Qed.

Lemma interp_bind_ok {A B : Type} (p : prog A) (f : A -> prog B) (w w' : W) (b : B) :
  interp h (bind p f) w = (Ok b, w') ->
  exists a w1, interp h p w = (Ok a, w1) /\ interp h (f a) w1 = (Ok b, w').
Proof.
  rewrite interp_bind. destruct (interp h p w) as [[a|ex] w1]; [eauto|discriminate].
Qed.

Lemma interp_call_ok {A X : Type} (e : libE X) (k : X -> prog A) (w w' : W) (a : A) :
  interp h (Call e k) w = (Ok a, w') ->
  exists x w1, h X e w = (Ok x, w1) /\ interp h (k x) w1 = (Ok a, w').
Proof.
  cbn [interp]. destruct (h X e w) as [[x|ex] w1]; [eauto|discriminate].
Qed.

Lemma calls_call_ok {A X : Type} (e : libE X) (k : X -> prog A) (w w1 : W) (x : X) :
  h X e w = (Ok x, w1) ->
  calls h (Call e k) w = Issued e None :: calls h (k x) w1.
Proof. intros E. cbn [calls]. rewrite E. reflexivity. Qed.

(** A run raises exactly when it arrives at a library call that raises;
    the exception and the world are those of that call. *)
Lemma interp_raised_iff {A : Type} (p : prog A) (w w' : W) (ex : exn) :
  interp h p w = (Raised ex, w') <-> call_raises h p w ex w'.
Proof.
  revert w. induction p as [a|X e k IH]; intros w; cbn [interp call_raises].
  - split; [discriminate|contradiction].
  - destruct (h X e w) as [[x|ex0] w1] eqn:E.
    + rewrite IH. split.
      * intros H. right. eauto.
      * intros [H|(x' & w2 & H & Hr)]; [discriminate|].
        injection H as <- <-. exact Hr.
    + split.
      * intros H. injection H as -> ->. left. reflexivity.
      * intros [H|(x' & w2 & H & _)]; [|discriminate].
        injection H as -> ->. reflexivity.
Qed.

(** A run that returns made only calls that returned. *)
Lemma interp_ok_calls {A : Type} (p : prog A) (w w' : W) (a : A) :
  interp h p w = (Ok a, w') ->
  Forall (fun c => issued_raised c = None) (calls h p w).
Proof.
  revert w. induction p as [a0|X e k IH]; intros w; cbn [interp calls].
  - constructor.
  - destruct (h X e w) as [[x|ex0] w1]; [|discriminate].
    intros H. constructor; [reflexivity|]. exact (IH x w1 H).
Qed.

Lemma never_writes_bind {A B : Type} (p : prog A) (f : A -> prog B) :
  never_writes p -> (forall a, never_writes (f a)) -> never_writes (bind p f).
Proof.
  intros Hp Hf. induction p as [a|X e k IH]; cbn [bind never_writes] in *.
  - apply Hf.
  - destruct Hp as [He Hk]. split; [exact He|]. intros x. apply IH, Hk.
Qed.

Lemma never_writes_for_each {A : Type} (xs : list A) (body : A -> prog unit) :
  (forall x, never_writes (body x)) -> never_writes (for_each xs body).
Proof.
  intros Hb. induction xs as [|x xs IH]; cbn [for_each]; [exact I|].
  apply never_writes_bind; [apply Hb|]. intros _. exact IH.
Qed.

Lemma never_writes_files {A : Type} (p : prog A) (w : W) :
  never_writes p -> files_written h p w = [].
Proof.
  unfold files_written. revert w.
  induction p as [a|X e k IH]; intros w Hp; cbn [calls]; [reflexivity|].
  destruct Hp as [He Hk].
  destruct (h X e w) as [[x|ex0] w1]; cbn [omap list_omap written issued_raised issued_file].
  - rewrite He. apply IH, Hk.
  - reflexivity.
Qed.

End Runs.

(** The outcome of a run decides how its result reads. *)
Lemma run_returns {A W : Type} (r : outcome A * W) (a : A) :
  fst r = Ok a -> r = (Ok a, snd r).
Proof. destruct r as [o w]. cbn. intros ->. reflexivity. Qed.

Lemma run_raises {A W : Type} (r : outcome A * W) (ex : exn) :
  fst r = Raised ex -> r = (Raised ex, snd r).
Proof. destruct r as [o w]. cbn. intros ->. reflexivity. Qed.


(** ** The calls of the notebooks *)

Section Traces.

Context {W : Type} (h : handler W).

Ltac head_form H :=
  cbn [bind call
       Torch.e_Xtrain Torch.e_Xtest Torch.e_ytrain Torch.e_ytest Torch.e_m
       Torch.e_fit_logreg Torch.e_a_tch Torch.e_b_tch Torch.e_loss
       Torch.e_Xtrain_grad
       TF.e_Xtrain TF.e_Xtest TF.e_ytrain TF.e_ytest TF.e_m TF.e_lambda1_tf
       TF.e_lambda2_tf TF.e_fit_logreg TF.e_slope TF.e_intercept TF.e_test_loss
       TF.e_Xtrain_grad] in H |- *;
  unfold call in H |- *.

(** One call of a run that returned. *)
Ltac run_call H :=
  let x := fresh "x" in
  let w1 := fresh "w" in
  let E := fresh "E" in
  apply interp_call_ok in H; destruct H as (x & w1 & E & H);
  rewrite (calls_call_ok h _ _ _ _ _ E); clear E;
  head_form H;
  repeat match type of H with
         | context [match ?v with pair _ _ => _ end] => is_var v; destruct v
         end;
  head_form H.

Lemma for_each_calls {A : Type} (xs : list A) (body : A -> prog unit)
  (nm : string) (ph : phase) (w w' : W) :
  interp h (for_each xs body) w = (Ok tt, w') ->
  (forall x, exists e : libE unit,
      body x = call e /\ name_of e = nm /\ phase_of e = ph /\ writes_file e = None) ->
  map issued_name (calls h (for_each xs body) w) = replicate (length xs) nm
  /\ map issued_phase (calls h (for_each xs body) w) = replicate (length xs) ph
  /\ omap written (calls h (for_each xs body) w) = [].
Proof.
  intros H Hb. revert w H. induction xs as [|x xs IH]; intros w H.
  - cbn. auto.
  - cbn [for_each] in H |- *. destruct (Hb x) as (e & He & Hn & Hp & Hf).
    rewrite He in H |- *. cbn [bind call] in H |- *.
    run_call H. destruct (IH _ H) as (IH1 & IH2 & IH3).
    cbn [map omap list_omap issued_name issued_phase written issued_raised issued_file
         length replicate].
    rewrite Hn, Hp, Hf, IH1, IH2, IH3. auto.
Qed.

Lemma torch_run (solve : cp.problem -> matrix * R) (w w' : W) :
  interp h (Torch.notebook solve) w = (Ok tt, w') ->
  exists m,
    names h (Torch.notebook solve) w = Expected.torch_names m
    /\ phases h (Torch.notebook solve) w = Expected.torch_phases m
    /\ files_written h (Torch.notebook solve) w = ["data_poisoning.pdf"%string].
Proof.
  intros H. unfold names, phases, files_written.
  unfold Torch.notebook, Torch.cell2, Torch.generate_data, Torch.cell3, Torch.cell4 in *.
  head_form H.
  do 26 run_call H.
  apply interp_bind_ok in H. destruct H as ([] & wl & Hloop & H).
  rewrite calls_bind, Hloop.
  destruct (for_each_calls _ _ "plt.arrow" Plotting _ _ Hloop) as (L1 & L2 & L3);
    [intros i; eexists; repeat split|].
  do 7 run_call H.
  match goal with
  | _ : interp h (for_each (seq 0 ?k) _) _ = _ |- _ => exists k
  end.
  cbn [calls map omap list_omap issued_name issued_phase written issued_raised
       issued_file name_of phase_of writes_file].
  rewrite !map_app, omap_app, L1, L2, L3, length_seq.
  cbn [calls map omap list_omap issued_name issued_phase written issued_raised
       issued_file name_of phase_of writes_file app].
  auto.
Qed.

Lemma tf_run (solve : cp.problem -> matrix * R) (w w' : W) :
  interp h (TF.notebook solve) w = (Ok tt, w') ->
  exists m,
    names h (TF.notebook solve) w = Expected.tf_names m
    /\ phases h (TF.notebook solve) w = Expected.tf_phases m.
Proof.
  intros H. unfold names, phases.
  unfold TF.notebook, TF.cell2, TF.generate_data, TF.cell3, TF.cell4 in *.
  head_form H.
  do 20 run_call H.
  apply interp_bind_ok in H. destruct H as ([] & wl & Hloop & H).
  rewrite calls_bind, Hloop.
  destruct (for_each_calls _ _ "plt.arrow" Plotting _ _ Hloop) as (L1 & L2 & L3);
    [intros i; eexists; repeat split|].
  do 6 run_call H.
  match goal with
  | _ : interp h (for_each (seq 0 ?k) _) _ = _ |- _ => exists k
  end.
  cbn [calls map issued_name issued_phase name_of phase_of].
  rewrite !map_app, L1, L2, length_seq.
  cbn [calls map issued_name issued_phase name_of phase_of app].
  auto.
Qed.

(** No call of the TensorFlow notebook writes a file. *)
Lemma tf_never_writes (solve : cp.problem -> matrix * R) :
  never_writes (TF.notebook solve).
Proof.
  unfold TF.notebook, TF.cell2, TF.generate_data, TF.cell3, TF.cell4.
  repeat
    (cbn [bind call never_writes
          TF.e_Xtrain TF.e_Xtest TF.e_ytrain TF.e_ytest TF.e_m TF.e_lambda1_tf
          TF.e_lambda2_tf TF.e_fit_logreg TF.e_slope TF.e_intercept TF.e_test_loss
          TF.e_Xtrain_grad];
     lazymatch goal with
     | |- True => exact I
     | |- _ /\ _ => split; [reflexivity|intros ?]
     | |- never_writes (bind (for_each _ _) _) =>
         apply never_writes_bind;
         [apply never_writes_for_each; intros ?; cbn [call never_writes];
          split; [reflexivity|intros ?; exact I]
         |intros ?]
     | |- context [match ?v with pair _ _ => _ end] => is_var v; destruct v
     end).
Qed.

End Traces.

(** ** Counting calls *)

Lemma count_replicate_other {A : Type} (dec : forall x y : A, {x = y} + {x <> y})
  (x y : A) (m : nat) :
  x <> y -> count_occ dec (replicate m y) x = 0%nat.
Proof.
  intros Hne. induction m as [|m IH]; cbn [replicate count_occ]; [reflexivity|].
  destruct (dec y x) as [->|_]; [contradiction|exact IH].
Qed.

Lemma torch_names_count (m : nat) (x : string) :
  x <> "plt.arrow"%string ->
  Expected.occurrences x (Expected.torch_names m)
  = Expected.occurrences x (Expected.torch_names 0).
Proof.
  intros Hne. unfold Expected.occurrences, Expected.torch_names.
  rewrite !count_occ_app, count_replicate_other by exact Hne.
  reflexivity.
Qed.

Lemma tf_names_count (m : nat) (x : string) :
  x <> "plt.arrow"%string ->
  Expected.occurrences x (Expected.tf_names m)
  = Expected.occurrences x (Expected.tf_names 0).
Proof.
  intros Hne. unfold Expected.occurrences, Expected.tf_names.
  rewrite !count_occ_app, count_replicate_other by exact Hne.
  reflexivity.
Qed.

Lemma Forall_replicate_eq {A : Type} (x : A) (m : nat) :
  Forall (fun y => y = x) (replicate m x).
Proof. induction m; cbn; constructor; auto. Qed.

Ltac forall_known :=
  repeat first
    [ apply List.Forall_nil
    | apply List.Forall_cons;
      [first [reflexivity | left; reflexivity | right; reflexivity]|] ].

Lemma torch_phases_linear (m : nat) : Expected.linear (Expected.torch_phases m).
Proof.
  exists [ Seeding; Seeding; DataGeneration; DataGeneration;
           TensorAccess; TensorAccess; TensorAccess; TensorAccess;
           TensorAccess; TensorAccess; TensorAccess; LayerConstruction ],
         [ TensorAccess; TensorAccess ],
         [ TensorAccess; TensorAccess; TensorAccess; Reference; TensorAccess;
           TensorAccess; TensorAccess ],
         ([ Plotting; Plotting; Plotting ] ++ replicate m Plotting
          ++ [ Plotting; Plotting; Plotting; Plotting; Plotting; Plotting; Plotting ]).
  split; [reflexivity|].
  do 4 (split; [reflexivity|]).
  split; [forall_known|].
  split; [forall_known|].
  split; [discriminate|].
  repeat (apply Forall_app; split); try apply Forall_replicate_eq; forall_known.
Qed.

Lemma tf_phases_linear (m : nat) : Expected.linear (Expected.tf_phases m).
Proof.
  exists [ Seeding; Seeding; DataGeneration; DataGeneration;
           TensorAccess; TensorAccess; TensorAccess; TensorAccess;
           TensorAccess; TensorAccess; LayerConstruction;
           TensorAccess; TensorAccess; TensorAccess ],
         [],
         [ Reference ],
         ([ Plotting; Plotting; Plotting ] ++ replicate m Plotting
          ++ [ Plotting; Plotting; Plotting; Plotting; Plotting; Plotting ]).
  split; [reflexivity|].
  do 4 (split; [reflexivity|]).
  split; [forall_known|].
  split; [forall_known|].
  split; [discriminate|].
  repeat (apply Forall_app; split); try apply Forall_replicate_eq; forall_known.
Qed.


(** ** The notebooks on the libraries *)

Lemma lookup_alloc {A : Type} (hp ts : list A) (j : nat) :
  (hp ++ ts) !! (length hp + j)%nat = ts !! j.
Proof.
  rewrite lookup_app_r by lia. f_equal. lia.
Qed.

Lemma lookup_alloc0 {A : Type} (hp ts : list A) :
  (hp ++ ts) !! length hp = ts !! 0%nat.
Proof.
  rewrite <- (lookup_alloc hp ts 0). f_equal. lia.
Qed.

Lemma insert_alloc0 {A : Type} (hp ts : list A) (x : A) :
  <[length hp := x]> (hp ++ ts) = hp ++ <[0%nat := x]> ts.
Proof.
  rewrite insert_app_r_alt by lia. do 2 f_equal. lia.
Qed.

Ltac heap_norm :=
  repeat first
    [ rewrite <- app_assoc
    | rewrite length_app
    | rewrite lookup_alloc0
    | rewrite lookup_alloc
    | rewrite insert_alloc0
    | progress cbn [app length lookup list_lookup insert list_insert Nat.add
                    interp std heap set_heap set_np_rng set_torch_rng np_rng
                    torch_rng tf_rng figure files screen
                    leaf_data any_requires_grad populate accumulate existsb orb
                    mapM mbind option_bind mret option_ret fmap option_fmap
                    option_map t_data t_requires_grad t_grad] ].

Section Std.

Variable L : libraries.

(** The sampling part of cell 2 draws from the generator as seeded. *)
Lemma generate_data_std (seed_event : libE unit) (w : world L) :
  (forall w0, exists w1, std L unit seed_event w0 = (Ok tt, w1)) ->
  interp (std L)
    (exec call seed_event in
     exec call (np_random_seed 0) in
     let* (X, y) := call (make_blobs N n centers cluster_std) in
     call (train_test_split X y test_size)) w
  = match sk_make_blobs L N n centers cluster_std (seeded L 0) with
    | (Ok (X, y), g1) =>
        match sk_train_test_split L X y test_size g1 with
        | (r, g2) =>
            (r, set_np_rng g2
                  (set_np_rng g1
                     (set_np_rng (seeded L 0) (snd (std L unit seed_event w)))))
        end
    | (Raised ex, g1) =>
        (Raised ex,
         set_np_rng g1 (set_np_rng (seeded L 0) (snd (std L unit seed_event w))))
    end.
Proof.
  intros Hseed. unfold call. cbn [bind interp].
  destruct (Hseed w) as [w1 E1]. rewrite E1. cbn [snd std set_np_rng np_rng].
  destruct (sk_make_blobs L N n centers cluster_std (seeded L 0))
    as [[[X y]|ex] g1]; [|reflexivity].
  cbn [interp std set_np_rng np_rng].
  destruct (sk_train_test_split L X y test_size g1) as [[r|ex] g2]; reflexivity.
Qed.

Lemma torch_generate_data_std (w : world L) :
  interp (std L) Torch.generate_data w
  = match sk_make_blobs L N n centers cluster_std (seeded L 0) with
    | (Ok (X, y), g1) =>
        match sk_train_test_split L X y test_size g1 with
        | (r, g2) =>
            (r, set_np_rng g2
                  (set_np_rng g1
                     (set_np_rng (seeded L 0) (set_torch_rng (seeded L 0) w))))
        end
    | (Raised ex, g1) =>
        (Raised ex,
         set_np_rng g1 (set_np_rng (seeded L 0) (set_torch_rng (seeded L 0) w)))
    end.
Proof.
  unfold Torch.generate_data.
  rewrite (generate_data_std (torch_manual_seed 0) w); [reflexivity|].
  intros w0. eexists. reflexivity.
Qed.

Lemma tf_generate_data_std (w : world L) :
  interp (std L) TF.generate_data w
  = match sk_make_blobs L N n centers cluster_std (seeded L 0) with
    | (Ok (X, y), g1) =>
        match sk_train_test_split L X y test_size g1 with
        | (r, g2) =>
            (r, set_np_rng g2
                  (set_np_rng g1
                     (set_np_rng (seeded L 0) (set_tf_rng (seeded L 0) w))))
        end
    | (Raised ex, g1) =>
        (Raised ex,
         set_np_rng g1 (set_np_rng (seeded L 0) (set_tf_rng (seeded L 0) w)))
    end.
Proof.
  unfold TF.generate_data.
  rewrite (generate_data_std (tf_random_set_seed 0) w); [reflexivity|].
  intros w0. eexists. reflexivity.
Qed.

Lemma torch_cell2_std (w w2 : world L) (e2 : Torch.env2) :
  interp (std L) Torch.cell2 w = (Ok e2, w2) ->
  exists X y g1 Xtr Xte ytr yte g2,
    sk_make_blobs L N n centers cluster_std (seeded L 0) = (Ok (X, y), g1)
    /\ sk_train_test_split L X y test_size g1 = (Ok (Xtr, Xte, ytr, yte), g2)
    /\ e2 = Torch.mk_env2 (length (heap w)) (length (heap w) + 1)%nat
                           (length (heap w) + 2)%nat (length (heap w) + 3)%nat
                           (length Xtr) (Torch.prob (length Xtr) (newaxis ytr))
    /\ heap w2 = heap w ++ [ mk_tensor (FloatArr Xtr) true None;
                             mk_tensor (FloatArr Xte) false None;
                             mk_tensor (IntArr ytr) false None;
                             mk_tensor (IntArr yte) false None ]
    /\ files w2 = files w.
Proof.
  unfold Torch.cell2. rewrite interp_bind, torch_generate_data_std.
  destruct (sk_make_blobs L N n centers cluster_std (seeded L 0))
    as [[[X y]|ex] g1] eqn:Eb; [|discriminate].
  destruct (sk_train_test_split L X y test_size g1)
    as [[[[[Xtr Xte] ytr] yte]|ex] g2] eqn:Es; [|discriminate].
  destruct w as [r1 r2 r3 hp fg fl sc]. unfold call. cbn [bind].
  heap_norm.
  intros H. injection H as <- <-.
  exists X, y, g1, Xtr, Xte, ytr, yte, g2.
  split; [reflexivity|]. split; [exact Es|]. repeat split.
Qed.

(** Cell 3 of the PyTorch notebook, run after cell 2. *)
Lemma torch_cell3_std (solve0 : cp.problem -> matrix * R) (w3 : world L)
  (e3 : Torch.env3) (r1 r2 r3 : rng L) (hp : list tensor) (fg : list artist)
  (fl : gmap string (list artist)) (sc : list (list artist))
  (Xtr Xte : matrix) (ytr yte : list Z) (m : nat) (fit : layer matrix) :
  interp (std L)
    (Torch.cell3 solve0
       (Torch.mk_env2 (length hp) (length hp + 1)%nat (length hp + 2)%nat
                      (length hp + 3)%nat m fit))
    (mk_world r1 r2 r3
       (hp ++ [ mk_tensor (FloatArr Xtr) true None;
                mk_tensor (FloatArr Xte) false None;
                mk_tensor (IntArr ytr) false None;
                mk_tensor (IntArr yte) false None ])
       fg fl sc)
  = (Ok e3, w3) ->
  exists G,
    w3 = mk_world r1 r2 r3
           (hp ++ [ mk_tensor (FloatArr Xtr) true (Some G);
                    mk_tensor (FloatArr Xte) false None;
                    mk_tensor (IntArr ytr) false None;
                    mk_tensor (IntArr yte) false None ])
           fg fl sc
    /\ Torch.e_Xtrain_grad e3 = Some G.
Proof.
  unfold Torch.cell3, call.
  cbn [bind Torch.e_Xtrain Torch.e_Xtest Torch.e_ytrain Torch.e_ytest Torch.e_m
       Torch.e_fit_logreg].
  heap_norm.
  destruct (solver_error L (fit Xtr)) as [ex|]; [discriminate|].
  destruct (solve L (fit Xtr)) as [a_tch b_tch].
  heap_norm.
  intros H. injection H as <- <-. eexists. split; reflexivity.
Qed.

Lemma tf_cell2_std (w w2 : world L) (e2 : TF.env2) :
  interp (std L) TF.cell2 w = (Ok e2, w2) ->
  exists X y g1 Xtr Xte ytr yte g2,
    sk_make_blobs L N n centers cluster_std (seeded L 0) = (Ok (X, y), g1)
    /\ sk_train_test_split L X y test_size g1 = (Ok (Xtr, Xte, ytr, yte), g2)
    /\ e2 = TF.mk_env2 Xtr Xte ytr yte (length Xtr)
                        [[TF.lambda1_tf]] [[TF.lambda2_tf]]
                        (TF.prob (length Xtr) (newaxis ytr)).
Proof.
  unfold TF.cell2. rewrite interp_bind, tf_generate_data_std.
  destruct (sk_make_blobs L N n centers cluster_std (seeded L 0))
    as [[[X y]|ex] g1] eqn:Eb; [|discriminate].
  destruct (sk_train_test_split L X y test_size g1)
    as [[[[[Xtr Xte] ytr] yte]|ex] g2] eqn:Es; [|discriminate].
  unfold call. cbn [bind interp std].
  intros H. injection H as <- <-.
  exists X, y, g1, Xtr, Xte, ytr, yte, g2.
  split; [reflexivity|]. split; [exact Es|]. reflexivity.
Qed.

(** Cell 3 of the TensorFlow notebook leaves the world as it is. *)
Lemma tf_cell3_std (w w' : world L) (e2 : TF.env2) (e3 : TF.env3) :
  interp (std L) (TF.cell3 (solve L) e2) w = (Ok e3, w') ->
  w' = w
  /\ TF.e_Xtrain_grad e3
     = autodiff L
         (TF.test_loss (solve L) (keras_loss L) (TF.e_fit_logreg e2)
            (TF.e_lambda1_tf e2) (TF.e_lambda2_tf e2) (TF.e_Xtest e2)
            (TF.e_ytest e2))
         (TF.e_Xtrain e2).
Proof.
  unfold TF.cell3, call. cbn [bind interp std].
  destruct (solver_error L _) as [ex|]; [discriminate|].
  destruct (solve L _) as [slope intercept] eqn:Es.
  cbn [interp std]. intros H. injection H as <- <-. split; reflexivity.
Qed.

End Std.

(** ** The notebooks as scripts *)

(** C4. Each notebook is a linear script: a run that reaches its end has
    made, in this order, the calls that generate the data (each once), one
    forward call of the layer object, one gradient computation and then the
    plotting calls, ended by one [plt.show]. *)
Theorem C4_linear_script :
  forall (solve : cp.problem -> matrix * R) (W : Type) (h : handler W) (w : W),
    (forall w',
        interp h (Torch.notebook solve) w = (Ok tt, w') ->
        exists m,
          names h (Torch.notebook solve) w = Expected.torch_names m
          /\ Expected.linear (phases h (Torch.notebook solve) w)
          /\ Forall (fun f => Expected.occurrences f (names h (Torch.notebook solve) w)
                              = 1%nat)
               ["make_blobs"; "train_test_split"; "fit_logreg"; "loss.backward";
                "plt.show"]%string)
    /\ (forall w',
        interp h (TF.notebook solve) w = (Ok tt, w') ->
        exists m,
          names h (TF.notebook solve) w = Expected.tf_names m
          /\ Expected.linear (phases h (TF.notebook solve) w)
          /\ Forall (fun f => Expected.occurrences f (names h (TF.notebook solve) w)
                              = 1%nat)
               ["make_blobs"; "train_test_split"; "fit_logreg"; "tape.gradient";
                "plt.show"]%string).
Proof.
  intros solve W h w. split; intros w' H.
  - destruct (torch_run h solve w w' H) as (m & Hn & Hp & _).
    exists m. rewrite Hn, Hp. split; [reflexivity|].
    split; [apply torch_phases_linear|].
    repeat (apply List.Forall_cons;
            [rewrite torch_names_count by discriminate; reflexivity|]).
    constructor.
  - destruct (tf_run h solve w w' H) as (m & Hn & Hp).
    exists m. rewrite Hn, Hp. split; [reflexivity|].
    split; [apply tf_phases_linear|].
    repeat (apply List.Forall_cons;
            [rewrite tf_names_count by discriminate; reflexivity|]).
    constructor.
Qed.

(** Both notebooks run to their end on the stand-in libraries. *)
Lemma C4_witness :
  interp (std Toy.lib) (Torch.notebook Toy.solve) Toy.w0
  = (Ok tt, snd (interp (std Toy.lib) (Torch.notebook Toy.solve) Toy.w0))
  /\ interp (std Toy.lib) (TF.notebook Toy.solve) Toy.w0
     = (Ok tt, snd (interp (std Toy.lib) (TF.notebook Toy.solve) Toy.w0))
  /\ (exists m,
        names (std Toy.lib) (Torch.notebook Toy.solve) Toy.w0
        = Expected.torch_names m)
  /\ (exists m,
        names (std Toy.lib) (TF.notebook Toy.solve) Toy.w0 = Expected.tf_names m).
Proof.
  assert (Ht : interp (std Toy.lib) (Torch.notebook Toy.solve) Toy.w0
               = (Ok tt, snd (interp (std Toy.lib) (Torch.notebook Toy.solve) Toy.w0)))
    by (apply run_returns; reflexivity).
  assert (Hf : interp (std Toy.lib) (TF.notebook Toy.solve) Toy.w0
               = (Ok tt, snd (interp (std Toy.lib) (TF.notebook Toy.solve) Toy.w0)))
    by (apply run_returns; reflexivity).
  split; [exact Ht|]. split; [exact Hf|].
  destruct (C4_linear_script Toy.solve _ (std Toy.lib) Toy.w0) as [HT HF].
  split.
  - destruct (HT _ Ht) as (m & Hn & _). exists m. exact Hn.
  - destruct (HF _ Hf) as (m & Hn & _). exists m. exact Hn.
Defined.

(** C6. Neither notebook handles failures: a run of a notebook raises an
    exception exactly when a library call that the run arrives at raises
    it, and the state is then the one left by that call; a run that
    returns made only calls that returned. *)
Theorem C6_no_failure_handling :
  forall (solve : cp.problem -> matrix * R) (W : Type) (h : handler W)
         (w w' : W) (ex : exn),
    (interp h (Torch.notebook solve) w = (Raised ex, w')
     <-> call_raises h (Torch.notebook solve) w ex w')
    /\ (interp h (TF.notebook solve) w = (Raised ex, w')
        <-> call_raises h (TF.notebook solve) w ex w')
    /\ (interp h (Torch.notebook solve) w = (Ok tt, w') ->
        Forall (fun c => issued_raised c = None)
               (calls h (Torch.notebook solve) w))
    /\ (interp h (TF.notebook solve) w = (Ok tt, w') ->
        Forall (fun c => issued_raised c = None)
               (calls h (TF.notebook solve) w)).
Proof.
  intros solve W h w w' ex.
  split; [apply interp_raised_iff|].
  split; [apply interp_raised_iff|].
  split; apply interp_ok_calls.
Qed.

(** With a solver that fails, the run stops at the forward call with the
    solver's exception; with the stand-in solver it returns. *)
Lemma C6_witness :
  interp (std Toy.failing_lib) (Torch.notebook Toy.solve) Toy.w0_failing
  = (Raised "SolverError",
     snd (interp (std Toy.failing_lib) (Torch.notebook Toy.solve) Toy.w0_failing))
  /\ call_raises (std Toy.failing_lib) (Torch.notebook Toy.solve) Toy.w0_failing
       "SolverError"
       (snd (interp (std Toy.failing_lib) (Torch.notebook Toy.solve) Toy.w0_failing))
  /\ Forall (fun c => issued_raised c = None)
            (calls (std Toy.lib) (Torch.notebook Toy.solve) Toy.w0).
Proof.
  assert (Hr : interp (std Toy.failing_lib) (Torch.notebook Toy.solve) Toy.w0_failing
               = (Raised "SolverError",
                  snd (interp (std Toy.failing_lib) (Torch.notebook Toy.solve)
                         Toy.w0_failing)))
    by (apply run_raises; reflexivity).
  split; [exact Hr|]. split.
  - exact (proj1 (proj1 (C6_no_failure_handling Toy.solve _ (std Toy.failing_lib)
                           Toy.w0_failing _ "SolverError")) Hr).
  - refine (proj1 (proj2 (proj2 (C6_no_failure_handling Toy.solve _ (std Toy.lib)
                                   Toy.w0 _ "x"))) _).
    apply run_returns. reflexivity.
Defined.

(** C7, as amended.  The TensorFlow notebook makes no call that writes a
    file, however its run goes.  The PyTorch notebook, when it runs to its
    end, writes one file, [data_poisoning.pdf], through [plt.savefig]; it
    then shows the chart. *)
Theorem C7_files_written :
  forall (solve : cp.problem -> matrix * R) (W : Type) (h : handler W) (w : W),
    files_written h (TF.notebook solve) w = []
    /\ forall w',
         interp h (Torch.notebook solve) w = (Ok tt, w') ->
         files_written h (Torch.notebook solve) w = ["data_poisoning.pdf"%string]
         /\ Expected.occurrences "plt.savefig" (names h (Torch.notebook solve) w)
            = 1%nat
         /\ Expected.occurrences "plt.show" (names h (Torch.notebook solve) w)
            = 1%nat.
Proof.
  intros solve W h w. split.
  - apply never_writes_files, tf_never_writes.
  - intros w' H. destruct (torch_run h solve w w' H) as (m & Hn & _ & Hf).
    split; [exact Hf|]. rewrite Hn.
    split; rewrite torch_names_count by discriminate; reflexivity.
Qed.

Lemma C7_witness :
  interp (std Toy.lib) (Torch.notebook Toy.solve) Toy.w0
  = (Ok tt, snd (interp (std Toy.lib) (Torch.notebook Toy.solve) Toy.w0))
  /\ files_written (std Toy.lib) (Torch.notebook Toy.solve) Toy.w0
     = ["data_poisoning.pdf"%string].
Proof.
  assert (Ht : interp (std Toy.lib) (Torch.notebook Toy.solve) Toy.w0
               = (Ok tt, snd (interp (std Toy.lib) (Torch.notebook Toy.solve) Toy.w0)))
    by (apply run_returns; reflexivity).
  split; [exact Ht|].
  exact (proj1 (proj2 (C7_files_written Toy.solve _ (std Toy.lib) Toy.w0) _ Ht)).
Defined.

(** C7 as stated fails: the run of the PyTorch notebook on the stand-in
    libraries, started without files, returns and has written the file
    [data_poisoning.pdf]. *)
Lemma C7_counterexample :
  files Toy.w0 = ∅
  /\ fst (interp (std Toy.lib) (Torch.notebook Toy.solve) Toy.w0) = Ok tt
  /\ files_written (std Toy.lib) (Torch.notebook Toy.solve) Toy.w0
     = ["data_poisoning.pdf"%string].
Proof.
  split; [reflexivity|]. split; reflexivity.
Qed.

(** ** Data, seeds and tensors *)

Lemma toy_make_blobs_shape : sklearn.make_blobs_shape Toy.lib.
Proof.
  intros n_samples n_features centers cluster_std g X y g' H.
  unfold Toy.lib in H. cbn [sk_make_blobs] in H. unfold Toy.blobs in H.
  injection H as <- <- _.
  rewrite !length_map, !length_seq. split; [reflexivity|]. split; [reflexivity|].
  apply List.Forall_forall. intros row Hrow. apply List.in_map_iff in Hrow.
  destruct Hrow as (i & <- & _). rewrite length_map, length_seq. reflexivity.
Qed.

Lemma toy_train_test_split_shape : sklearn.train_test_split_shape Toy.lib.
Proof.
  intros X y test_size g Xtrain Xtest ytrain ytest g' H Hlen.
  unfold Toy.lib in H. cbn [sk_train_test_split] in H. unfold Toy.split in H.
  destruct (Nat.leb_spec (sklearn.n_test (length X) test_size) (length X)) as [Hle|Hlt];
    [|discriminate].
  injection H as <- <- <- <- _.
  rewrite !length_take, !length_drop, Hlen. unfold sklearn.n_train. lia.
Qed.

(** C5. The dataset of each notebook is the one [make_blobs] returns for
    [N = 60] points in dimension 2, the centres [(2, 2)] and [(-2, -2)]
    and the cluster standard deviation 3, split with [test_size = 0.5]:
    30 training points ([m = 30]) and 30 test points. *)
Theorem C5_dataset :
  forall (L : libraries),
    sklearn.make_blobs_shape L ->
    sklearn.train_test_split_shape L ->
    forall (w w' : world L) (Xtrain Xtest : matrix) (ytrain ytest : list Z),
      interp (std L) Torch.generate_data w = (Ok (Xtrain, Xtest, ytrain, ytest), w')
      \/ interp (std L) TF.generate_data w = (Ok (Xtrain, Xtest, ytrain, ytest), w') ->
      (exists X y g1 g2,
          sk_make_blobs L 60 2 [[2; 2]; [-2; -2]] 3 (seeded L 0) = (Ok (X, y), g1)
          /\ sk_train_test_split L X y (1 # 2) g1
             = (Ok (Xtrain, Xtest, ytrain, ytest), g2)
          /\ length X = 60%nat /\ length y = 60%nat
          /\ Forall (fun row : list R => length row = 2%nat) X)
      /\ length Xtrain = 30%nat /\ length Xtest = 30%nat
      /\ length ytrain = 30%nat /\ length ytest = 30%nat
      /\ (forall e2 w2, interp (std L) Torch.cell2 w = (Ok e2, w2) ->
                        Torch.e_m e2 = 30%nat)
      /\ (forall e2 w2, interp (std L) TF.cell2 w = (Ok e2, w2) ->
                        TF.e_m e2 = 30%nat).
Proof.
  intros L Hblobs Hsplit w w' Xtrain Xtest ytrain ytest H.
  assert (Hgen :
    exists X y g1 g2,
      sk_make_blobs L N n centers cluster_std (seeded L 0) = (Ok (X, y), g1)
      /\ sk_train_test_split L X y test_size g1
         = (Ok (Xtrain, Xtest, ytrain, ytest), g2)).
  { destruct H as [H|H];
      [rewrite torch_generate_data_std in H|rewrite tf_generate_data_std in H];
      destruct (sk_make_blobs L N n centers cluster_std (seeded L 0))
        as [[[X y]|ex] g1]; try discriminate;
      destruct (sk_train_test_split L X y test_size g1) as [r g2] eqn:Es;
      injection H as -> _; exists X, y, g1, g2; auto. }
  destruct Hgen as (X & y & g1 & g2 & Eb & Es).
  destruct (Hblobs _ _ _ _ _ _ _ _ Eb) as (HX & Hy & Hrow).
  assert (Hyx : length y = length X) by (rewrite HX, Hy; reflexivity).
  destruct (Hsplit _ _ _ _ _ _ _ _ _ Es Hyx) as (H1 & H2 & H3 & H4).
  rewrite HX in H1, H2.
  assert (Htrain : length Xtrain = 30%nat) by (rewrite H1; reflexivity).
  assert (Htest : length Xtest = 30%nat) by (rewrite H2; reflexivity).
  split; [exists X, y, g1, g2; repeat split; assumption|].
  split; [exact Htrain|]. split; [exact Htest|].
  split; [rewrite H3; exact Htrain|]. split; [rewrite H4; exact Htest|].
  split; intros e2 w2 H2c.
  - apply torch_cell2_std in H2c.
    destruct H2c as (X' & y' & g1' & Xtr & Xte & ytr & yte & g2' & Eb' & Es' & -> & _).
    rewrite Eb in Eb'. injection Eb' as <- <- <-.
    rewrite Es in Es'. injection Es' as <- <- <- <- <-. exact Htrain.
  - apply tf_cell2_std in H2c.
    destruct H2c as (X' & y' & g1' & Xtr & Xte & ytr & yte & g2' & Eb' & Es' & ->).
    rewrite Eb in Eb'. injection Eb' as <- <- <-.
    rewrite Es in Es'. injection Es' as <- <- <- <- <-. exact Htrain.
Qed.

(** The stand-in libraries respect the shapes; cell 2 then binds 30
    training points. *)
Lemma C5_witness :
  sklearn.make_blobs_shape Toy.lib
  /\ sklearn.train_test_split_shape Toy.lib
  /\ exists Xtrain Xtest ytrain ytest w',
       interp (std Toy.lib) Torch.generate_data Toy.w0
       = (Ok (Xtrain, Xtest, ytrain, ytest), w')
       /\ length Xtrain = 30%nat /\ length Xtest = 30%nat.
Proof.
  split; [exact toy_make_blobs_shape|]. split; [exact toy_train_test_split_shape|].
  do 5 eexists. split; [reflexivity|].
  match goal with
  | |- length ?Xtr = _ /\ length ?Xte = _ =>
      pose proof (C5_dataset Toy.lib toy_make_blobs_shape toy_train_test_split_shape
                    Toy.w0 _ Xtr Xte _ _ (or_introl eq_refl)) as H
  end.
  destruct H as (_ & H1 & H2 & _). split; [exact H1|exact H2].
Defined.

(** C9. Data generation is deterministic: the generators are seeded
    before any sampling, so two executions of the data-generation cell,
    from whatever states, produce the same [Xtrain], [Xtest], [ytrain],
    [ytest] (or fail alike) and leave numpy's generator in the same state. *)
Theorem C9_data_generation_deterministic :
  forall (L : libraries) (w1 w2 : world L),
    fst (interp (std L) Torch.generate_data w1)
    = fst (interp (std L) Torch.generate_data w2)
    /\ fst (interp (std L) TF.generate_data w1)
       = fst (interp (std L) TF.generate_data w2)
    /\ np_rng (snd (interp (std L) Torch.generate_data w1))
       = np_rng (snd (interp (std L) Torch.generate_data w2))
    /\ np_rng (snd (interp (std L) TF.generate_data w1))
       = np_rng (snd (interp (std L) TF.generate_data w2))
    /\ torch_arrays (interp (std L) Torch.cell2 w1)
       = torch_arrays (interp (std L) Torch.cell2 w2)
    /\ fst (interp (std L) TF.cell2 w1) = fst (interp (std L) TF.cell2 w2).
Proof.
  intros L w1 w2.
  unfold Torch.cell2, TF.cell2.
  rewrite !interp_bind, !torch_generate_data_std, !tf_generate_data_std.
  destruct (sk_make_blobs L N n centers cluster_std (seeded L 0))
    as [[[X y]|ex] g1]; [|repeat split; reflexivity].
  destruct (sk_train_test_split L X y test_size g1)
    as [[[[[Xtr Xte] ytr] yte]|ex] g2]; [|repeat split; reflexivity].
  destruct w1 as [a1 a2 a3 hp1 fg1 fl1 sc1], w2 as [b1 b2 b3 hp2 fg2 fl2 sc2].
  unfold call, torch_arrays. cbn [bind].
  heap_norm.
  cbn [fst snd map Torch.e_Xtrain Torch.e_Xtest Torch.e_ytrain Torch.e_ytest].
  heap_norm.
  repeat split; reflexivity.
Qed.

(** The tensors allocated by cell 2, before and after the backward pass. *)
Lemma backward_frame (hp : list tensor) (t0 t1 t2 t3 : tensor) (G : matrix) (x : nat)
  (t : tensor) :
  (hp ++ [t0; t1; t2; t3]) !! x = Some t ->
  exists t',
    (hp ++ [mk_tensor (t_data t0) (t_requires_grad t0) (Some G); t1; t2; t3]) !! x
    = Some t'
    /\ t_data t' = t_data t
    /\ t_requires_grad t' = t_requires_grad t
    /\ (x <> length hp -> t' = t).
Proof.
  intros Hx. destruct (decide (x < length hp)%nat) as [Hlt|Hge].
  - rewrite lookup_app_l in Hx |- * by exact Hlt.
    exists t. repeat split; auto.
  - rewrite lookup_app_r in Hx |- * by lia.
    destruct (x - length hp)%nat as [|[|[|[|j]]]] eqn:Ej; cbn in Hx |- *;
      try discriminate; injection Hx as <-; eexists; repeat split; auto.
    intros Hne. lia.
Qed.

(** C10. The gradient computation does not change the data it
    differentiates.  In the PyTorch notebook every tensor that is alive
    before cell 3 keeps its values and its [requires_grad] flag, only the
    object bound to [Xtrain] changes, and that in its [.grad] alone, which
    is what [Xtrain_grad] is bound to; [Xtest], [ytrain] and [ytest] get no
    [.grad].  In the TensorFlow notebook the gradient is a value returned
    by [tape.gradient], and no state changes. *)
Theorem C10_gradient_leaves_data_unchanged :
  forall (L : libraries),
    (forall (w w2 w3 : world L) (e2 : Torch.env2) (e3 : Torch.env3),
        interp (std L) Torch.cell2 w = (Ok e2, w2) ->
        interp (std L) (Torch.cell3 (solve L) e2) w2 = (Ok e3, w3) ->
        (forall x t,
            heap w2 !! x = Some t ->
            exists t',
              heap w3 !! x = Some t'
              /\ t_data t' = t_data t
              /\ t_requires_grad t' = t_requires_grad t
              /\ (x <> Torch.e_Xtrain e2 -> t' = t))
        /\ length (heap w3) = length (heap w2)
        /\ t_grad <$> heap w2 !! Torch.e_Xtrain e2 = Some None
        /\ (exists G,
              t_grad <$> heap w3 !! Torch.e_Xtrain e2 = Some (Some G)
              /\ Torch.e_Xtrain_grad e3 = Some G)
        /\ Forall (fun x => t_grad <$> heap w3 !! x = Some None)
                  [Torch.e_Xtest e2; Torch.e_ytrain e2; Torch.e_ytest e2])
    /\ (forall (w w' : world L) (e2 : TF.env2) (e3 : TF.env3),
        interp (std L) (TF.cell3 (solve L) e2) w = (Ok e3, w') ->
        w' = w
        /\ TF.e_Xtrain_grad e3
           = autodiff L
               (TF.test_loss (solve L) (keras_loss L) (TF.e_fit_logreg e2)
                  (TF.e_lambda1_tf e2) (TF.e_lambda2_tf e2) (TF.e_Xtest e2)
                  (TF.e_ytest e2))
               (TF.e_Xtrain e2)).
Proof.
  intros L. split.
  - intros w w2 w3 e2 e3 H2 H3.
    apply torch_cell2_std in H2.
    destruct H2 as (X & y & g1 & Xtr & Xte & ytr & yte & g2 & _ & _ & -> & Hheap & _).
    destruct w2 as [r1 r2 r3 hp2 fg fl sc]. cbn [heap] in Hheap. subst hp2.
    apply torch_cell3_std in H3. destruct H3 as (G & -> & HG).
    cbn [heap Torch.e_Xtrain Torch.e_Xtest Torch.e_ytrain Torch.e_ytest].
    split; [intros x t Hx; exact (backward_frame _ _ _ _ _ G x t Hx)|].
    split; [rewrite !length_app; reflexivity|].
    split; [rewrite lookup_alloc0; reflexivity|].
    split; [exists G; split; [rewrite lookup_alloc0; reflexivity|exact HG]|].
    repeat (apply List.Forall_cons; [rewrite lookup_alloc; reflexivity|]).
    constructor.
  - intros w w' e2 e3 H. exact (tf_cell3_std L w w' e2 e3 H).
Qed.

(** Cells 2 and 3 of the PyTorch notebook run on the stand-in libraries,
    and the array of [Xtrain] is the same before and after. *)
Lemma C10_witness :
  exists e2 w2 e3 w3,
    interp (std Toy.lib) Torch.cell2 Toy.w0 = (Ok e2, w2)
    /\ interp (std Toy.lib) (Torch.cell3 (solve Toy.lib) e2) w2 = (Ok e3, w3)
    /\ length (heap w3) = length (heap w2)
    /\ t_grad <$> heap w2 !! Torch.e_Xtrain e2 = Some None
    /\ exists G, t_grad <$> heap w3 !! Torch.e_Xtrain e2 = Some (Some G).
Proof.
  do 4 eexists.
  split; [reflexivity|]. split; [reflexivity|].
  match goal with
  | |- length (heap ?w3) = length (heap ?w2) /\ _ =>
      destruct (proj1 (C10_gradient_leaves_data_unchanged Toy.lib)
                  Toy.w0 w2 w3 _ _ eq_refl eq_refl)
        as (_ & Hlen & Hnone & (G & HG & _) & _)
  end.
  split; [exact Hlen|]. split; [exact Hnone|]. exists G. exact HG.
Defined.

(** ** The plotted line (cell 4) *)

(** X1. For [beta[1] <> 0] the point [(x, hyperplane(x, beta, b))] that
    cell 4 plots is the one point of abscissa [x] to which the classifier
    [(beta, b)] assigns the logit 0, that is, probability one half. *)
Theorem X1_hyperplane_is_decision_boundary :
  forall (b0 b1 b x y : R),
    b1 <> 0 ->
    (Torch.logits [[x; y]] (column [b0; b1], b) = [[0]]
     <-> y = hyperplane x [b0; b1] b)
    /\ nn.sigmoid 0 = 1 / 2.
Proof.
  intros b0 b1 b x y Hb1. split.
  - unfold Torch.logits. cbn [fst snd]. rewrite matmul_badd_column, col0_column.
    unfold column, hyperplane, dot. cbn [map zip_with nth].
    rewrite !rsum_cons, rsum_nil. split.
    + intros H. injection H as H. field_simplify_eq; [lra|exact Hb1].
    + intros ->. do 2 f_equal. field. exact Hb1.
  - unfold nn.sigmoid. rewrite Ropp_0, exp_0. lra.
Qed.

Lemma X1_witness :
  1 <> 0
  /\ (Torch.logits [[2; hyperplane 2 [3; 1] 4]] (column [3; 1], 4) = [[0]]).
Proof.
  assert (H : 1 <> 0) by lra.
  split; [exact H|].
  apply (proj1 (X1_hyperplane_is_decision_boundary 3 1 4 2 (hyperplane 2 [3; 1] 4) H)).
  reflexivity.
Defined.

(** ** The two scatter plots (cell 4) *)

Lemma select_cons (row : list R) (A : matrix) (bit : bool) (mask : list bool) (j : nat) :
  select (row :: A) (bit :: mask) j
  = if bit then nth j row 0 :: select A mask j else select A mask j.
Proof. unfold select, col. destruct bit; reflexivity. Qed.

Lemma select_partition (A : matrix) (mask : list bool) (j : nat) :
  length mask = length A ->
  select A mask j ++ select A (map negb mask) j ≡ₚ col j A.
Proof.
  revert mask. induction A as [|row A IH]; intros [|bit mask] Hlen; try discriminate.
  - reflexivity.
  - cbn [map]. rewrite !select_cons. specialize (IH mask ltac:(cbn in Hlen; lia)).
    change (col j (row :: A)) with (nth j row 0 :: col j A).
    destruct bit; cbn [negb app].
    + constructor. exact IH.
    + symmetry. apply Permutation_cons_app. symmetry. exact IH.
Qed.

Lemma select_labels (A : matrix) (y : list Z) (j : nat) (v : Z) :
  length y = length A ->
  select A (map (fun u => Z.eqb u v) y) j
  = map (fun row => nth j row 0)
        (map fst (filter (fun ry : list R * Z => ry.2 = v) (zip A y))).
Proof.
  revert y. induction A as [|row A IH]; intros [|u y] Hlen; try discriminate.
  - reflexivity.
  - cbn [map zip zip_with]. rewrite select_cons, filter_cons. cbn [snd].
    specialize (IH y ltac:(cbn in Hlen; lia)).
    destruct (Z.eqb_spec u v) as [->|Hne].
    + rewrite decide_True by reflexivity. cbn [map fst]. f_equal. exact IH.
    + rewrite decide_False by exact Hne. exact IH.
Qed.

(** X2. The two [plt.scatter] calls of cell 4 split the training points:
    every training point is drawn by exactly one of them (the coordinates
    drawn by the two calls together are a rearrangement of the column of
    the training array), and for labels in [{0, 1}] the first call draws
    the points of label 1 and the second the points of label 0. *)
Theorem X2_scatter_calls_split_training_points :
  forall (Xtrain_np : matrix) (ytrain : list Z) (j : nat),
    length ytrain = length Xtrain_np ->
    Props.binary ytrain ->
    select Xtrain_np (astype_bool ytrain) j
      ++ select Xtrain_np (map negb (astype_bool ytrain)) j
    ≡ₚ col j Xtrain_np
    /\ select Xtrain_np (astype_bool ytrain) j
       = map (fun row => nth j row 0)
             (map fst (filter (fun ry : list R * Z => ry.2 = 1%Z)
                              (zip Xtrain_np ytrain)))
    /\ select Xtrain_np (map negb (astype_bool ytrain)) j
       = map (fun row => nth j row 0)
             (map fst (filter (fun ry : list R * Z => ry.2 = 0%Z)
                              (zip Xtrain_np ytrain))).
Proof.
  intros X y j Hlen Hbin.
  split; [apply select_partition; unfold astype_bool; rewrite length_map; exact Hlen|].
  rewrite <- !select_labels by exact Hlen.
  unfold astype_bool. rewrite map_map.
  split; f_equal; apply map_ext_in; intros u Hu;
    (apply (proj1 (List.Forall_forall _ _) Hbin) in Hu; destruct Hu as [->| ->];
     reflexivity).
Qed.

Lemma X2_witness :
  length [1%Z; 0%Z; 1%Z] = length [[1; 2]; [3; 4]; [5; 6]]
  /\ Props.binary [1%Z; 0%Z; 1%Z]
  /\ select [[1; 2]; [3; 4]; [5; 6]] (astype_bool [1%Z; 0%Z; 1%Z]) 0 = [1; 5]
  /\ select [[1; 2]; [3; 4]; [5; 6]] (map negb (astype_bool [1%Z; 0%Z; 1%Z])) 0 = [3].
Proof.
  assert (Hb : Props.binary [1%Z; 0%Z; 1%Z]) by (repeat constructor; auto).
  split; [reflexivity|]. split; [exact Hb|].
  destruct (X2_scatter_calls_split_training_points
              [[1; 2]; [3; 4]; [5; 6]] [1%Z; 0%Z; 1%Z] 0 eq_refl Hb) as (_ & H1 & H0).
  split; [rewrite H1|rewrite H0]; reflexivity.
Defined.

(** ** The objective is bounded above and concave *)

Lemma logistic1_pos (z : R) : 0 < cp.logistic1 z.
Proof.
  unfold cp.logistic1. rewrite <- ln_1. apply ln_increasing; [lra|].
  pose proof (exp_pos z). lra.
Qed.

Lemma logistic1_above (z : R) : z < cp.logistic1 z.
Proof.
  unfold cp.logistic1. rewrite <- (ln_exp z) at 1.
  apply ln_increasing; [apply exp_pos|lra].
Qed.

Lemma likelihood_term_nonpos (y : Z) (z : R) :
  y = 0%Z \/ y = 1%Z -> IZR y * z - cp.logistic1 z <= 0.
Proof.
  pose proof (logistic1_pos z). pose proof (logistic1_above z).
  intros [-> | ->]; lra.
Qed.

Lemma rsum_zip_nonpos (h : R -> R -> R) (ys zs : list R) :
  Forall (fun y => forall z, h y z <= 0) ys -> rsum (zip_with h ys zs) <= 0.
Proof.
  intros Hys. revert zs. induction Hys as [|y ys Hy _ IH]; intros [|z zs];
    cbn [zip_with]; rewrite ?rsum_nil, ?rsum_cons; try lra.
  specialize (Hy z). specialize (IH zs). lra.
Qed.

Lemma rsum_map_nonneg (f : R -> R) (v : list R) :
  (forall x, 0 <= f x) -> 0 <= rsum (map f v).
Proof.
  intros Hf. induction v as [|x v IH]; cbn [map]; rewrite ?rsum_nil, ?rsum_cons;
    [lra|]. specialize (Hf x). lra.
Qed.

Lemma sum_all_entries_nonneg (f : R -> R) (a : matrix) :
  (forall x, 0 <= f x) -> 0 <= sum_all (map_entries f a).
Proof.
  intros Hf. unfold sum_all, map_entries. rewrite map_map.
  induction a as [|row a IH]; cbn [map]; rewrite ?rsum_nil, ?rsum_cons; [lra|].
  pose proof (rsum_map_nonneg f row Hf). lra.
Qed.

Lemma inv_INR_nonneg (m : nat) : 0 <= 1 / INR m.
Proof.
  destruct m as [|m].
  - cbn [INR]. unfold Rdiv. rewrite Rinv_0. lra.
  - apply Rlt_le, Rdiv_lt_0_compat; [lra|]. apply lt_0_INR. lia.
Qed.

Lemma log_likelihood_nonpos (m : nat) (ytrain : list Z) (X a : matrix) (b : R) :
  Props.binary ytrain ->
  Torch.log_likelihood m (newaxis ytrain) X a b <= 0.
Proof.
  intros Hbin. unfold Torch.log_likelihood, newaxis.
  rewrite matmul_badd_column, sum_all_columns.
  pose proof (inv_INR_nonneg m) as Hm.
  assert (Hs : rsum (zip_with (fun y z => y * z - cp.logistic1 z) (map IZR ytrain)
                       (map (fun row => dot row (col 0 a) + b) X)) <= 0).
  { apply rsum_zip_nonpos. apply List.Forall_map.
    eapply List.Forall_impl; [|exact Hbin].
    intros y Hy z. apply likelihood_term_nonpos, Hy. }
  nra.
Qed.

(** X3. For labels in [{0, 1}] the objective handed to [cp.Maximize] is
    never positive, whatever the training array and the point [(a, b)]: in
    the PyTorch notebook, and in the TensorFlow notebook for every pair of
    values of its [nonneg] parameters.  The problem is bounded above. *)
Theorem X3_objective_bounded_above :
  forall (m : nat) (ytrain : list Z) (X a : matrix) (b lambda1 lambda2 : R),
    Props.binary ytrain ->
    length X = m ->
    0 <= lambda1 -> 0 <= lambda2 ->
    cp.gain (Torch.prob m (newaxis ytrain) X) a b <= 0
    /\ cp.gain (TF.prob m (newaxis ytrain) (X, [[lambda1]], [[lambda2]])) a b <= 0.
Proof.
  intros m ytrain X a b l1 l2 Hbin Hm Hl1 Hl2.
  pose proof (log_likelihood_nonpos m ytrain X a b Hbin) as Hll.
  pose proof (sum_all_entries_nonneg Rabs a Rabs_pos) as Hn1.
  pose proof (sum_all_entries_nonneg (fun x => x * x) a
                (fun x => Rle_0_sqr x)) as Hn2.
  unfold cp.gain, Torch.prob, TF.prob, cp.Problem. cbn [cp.objective].
  unfold Torch.objective, TF.objective, Torch.regularization, TF.regularization.
  rewrite (tf_log_likelihood_torch m _ X a b Hm).
  unfold entry. cbn [nth]. fold (cp.norm1 a) in Hn1. fold (cp.sum_squares a) in Hn2.
  split; nra.
Qed.

Lemma X3_witness :
  Props.binary [1%Z; 0%Z]
  /\ cp.gain (Torch.prob 2 (newaxis [1%Z; 0%Z]) [[1; 2]; [3; 4]]) (column [5; 6]) 7 <= 0.
Proof.
  assert (Hb : Props.binary [1%Z; 0%Z]) by (repeat constructor; auto).
  split; [exact Hb|].
  refine (proj1 (X3_objective_bounded_above 2 [1%Z; 0%Z] [[1; 2]; [3; 4]]
                   (column [5; 6]) 7 0.1 0.1 Hb eq_refl _ _)); lra.
Defined.

Lemma exp_convex (t x y : R) :
  0 <= t <= 1 -> exp (t * x + (1 - t) * y) <= t * exp x + (1 - t) * exp y.
Proof.
  intros Ht. set (c := t * x + (1 - t) * y).
  pose proof (exp_pos c) as Hc.
  pose proof (exp_ineq1_le (x - c)) as Hx.
  pose proof (exp_ineq1_le (y - c)) as Hy.
  assert (Ex : exp x = exp c * exp (x - c))
    by (rewrite <- exp_plus; f_equal; ring).
  assert (Ey : exp y = exp c * exp (y - c))
    by (rewrite <- exp_plus; f_equal; ring).
  rewrite Ex, Ey.
  assert (H0 : t * (x - c) + (1 - t) * (y - c) = 0) by (unfold c; ring).
  assert (H1 : 1 <= t * exp (x - c) + (1 - t) * exp (y - c)) by nra.
  nra.
Qed.

(** The graph of [z |-> log(1 + exp z)] lies above its tangents. *)
Lemma logistic1_tangent (c s : R) :
  cp.logistic1 c + exp c / (1 + exp c) * (s - c) <= cp.logistic1 s.
Proof.
  unfold cp.logistic1.
  pose proof (exp_pos c) as Hc. pose proof (exp_pos s) as Hs.
  set (p := exp c / (1 + exp c)).
  assert (Hp : 0 <= p <= 1).
  { assert (Hinv : 0 < / (1 + exp c)) by (apply Rinv_0_lt_compat; lra).
    assert (E : p = 1 - / (1 + exp c)) by (unfold p; field; lra).
    split; [|lra].
    unfold p. apply Rlt_le, Rdiv_lt_0_compat; lra. }
  pose proof (exp_convex p (s - c) 0 Hp) as H.
  rewrite exp_0 in H.
  replace (p * (s - c) + (1 - p) * 0) with (p * (s - c)) in H by ring.
  assert (Hq : p * exp (s - c) + (1 - p) * 1 = (1 + exp s) / (1 + exp c)).
  { unfold p. replace (exp s) with (exp c * exp (s - c))
      by (rewrite <- exp_plus; f_equal; ring).
    field. lra. }
  rewrite Hq in H.
  assert (Hpos : 0 < (1 + exp s) / (1 + exp c)) by (apply Rdiv_lt_0_compat; lra).
  assert (Hln : p * (s - c) <= ln ((1 + exp s) / (1 + exp c))).
  { rewrite <- (ln_exp (p * (s - c))).
    destruct H as [H|H].
    - apply Rlt_le, ln_increasing; [apply exp_pos|exact H].
    - rewrite H. lra. }
  assert (Hdiv : ln ((1 + exp s) / (1 + exp c)) = ln (1 + exp s) - ln (1 + exp c)).
  { unfold Rdiv. rewrite ln_mult, ln_Rinv; [ring|lra|lra|apply Rinv_0_lt_compat; lra]. }
  rewrite Hdiv in Hln. fold p. lra.
Qed.

Lemma logistic1_convex (t x y : R) :
  0 <= t <= 1 ->
  cp.logistic1 (t * x + (1 - t) * y)
  <= t * cp.logistic1 x + (1 - t) * cp.logistic1 y.
Proof.
  intros Ht. set (c := t * x + (1 - t) * y).
  pose proof (logistic1_tangent c x) as Hx.
  pose proof (logistic1_tangent c y) as Hy.
  set (p := exp c / (1 + exp c)) in *.
  assert (H0 : t * (p * (x - c)) + (1 - t) * (p * (y - c)) = 0) by (unfold c; ring).
  nra.
Qed.

Lemma length_mix (t : R) (u v : list R) :
  length u = length v -> length (Props.mix t u v) = length u.
Proof.
  intros H. unfold Props.mix. rewrite length_zip_with, H. apply Nat.min_id.
Qed.

Lemma dot_mix (t : R) (row u v : list R) :
  length u = length v ->
  dot row (Props.mix t u v) = t * dot row u + (1 - t) * dot row v.
Proof.
  unfold dot, Props.mix. revert u v.
  induction row as [|r row IH]; intros [|x u] [|y v] Hlen; try discriminate;
    cbn [zip_with]; rewrite ?rsum_nil, ?rsum_cons; try ring.
  rewrite (IH u v) by (cbn in Hlen; lia). ring.
Qed.

Lemma likelihood_sum_concave (t : R) (ys : list R) (X : matrix) (f1 f2 f : list R -> R) :
  0 <= t <= 1 ->
  (forall row, f row = t * f1 row + (1 - t) * f2 row) ->
  t * rsum (zip_with (fun y z => y * z - cp.logistic1 z) ys (map f1 X))
  + (1 - t) * rsum (zip_with (fun y z => y * z - cp.logistic1 z) ys (map f2 X))
  <= rsum (zip_with (fun y z => y * z - cp.logistic1 z) ys (map f X)).
Proof.
  intros Ht Hf. revert ys.
  induction X as [|row X IH]; intros [|y ys]; cbn [map zip_with];
    rewrite ?rsum_nil, ?rsum_cons; try lra.
  specialize (IH ys). rewrite (Hf row).
  pose proof (logistic1_convex t (f1 row) (f2 row) Ht). nra.
Qed.

Lemma norm_l1_mix (t : R) (u v : list R) :
  0 <= t <= 1 -> length u = length v ->
  rsum (map Rabs (Props.mix t u v))
  <= t * rsum (map Rabs u) + (1 - t) * rsum (map Rabs v).
Proof.
  intros Ht. unfold Props.mix. revert v.
  induction u as [|x u IH]; intros [|y v] Hlen; try discriminate;
    cbn [zip_with map]; rewrite ?rsum_nil, ?rsum_cons; [lra|].
  specialize (IH v ltac:(cbn in Hlen; lia)).
  pose proof (Rabs_triang (t * x) ((1 - t) * y)) as Htri.
  rewrite !Rabs_mult in Htri.
  rewrite (Rabs_pos_eq t), (Rabs_pos_eq (1 - t)) in Htri by lra.
  lra.
Qed.

Lemma sum_squares_mix (t : R) (u v : list R) :
  0 <= t <= 1 -> length u = length v ->
  rsum (map (fun x => x * x) (Props.mix t u v))
  <= t * rsum (map (fun x => x * x) u) + (1 - t) * rsum (map (fun x => x * x) v).
Proof.
  intros Ht. unfold Props.mix. revert v.
  induction u as [|x u IH]; intros [|y v] Hlen; try discriminate;
    cbn [zip_with map]; rewrite ?rsum_nil, ?rsum_cons; [lra|].
  specialize (IH v ltac:(cbn in Hlen; lia)).
  assert (Hsq : (t * x + (1 - t) * y) * (t * x + (1 - t) * y)
                <= t * (x * x) + (1 - t) * (y * y)).
  { assert (H : t * (x * x) + (1 - t) * (y * y)
                - (t * x + (1 - t) * y) * (t * x + (1 - t) * y)
                = t * (1 - t) * ((x - y) * (x - y))) by ring.
    pose proof (Rle_0_sqr (x - y)) as Hxy. unfold Rsqr in Hxy.
    assert (0 <= t * (1 - t)) by nra. nra. }
  lra.
Qed.

Lemma torch_objective_concave (m : nat) (ys : list R) (X : matrix)
  (t b1 b2 : R) (v1 v2 : list R) :
  0 <= t <= 1 -> length v1 = length v2 ->
  t * Torch.objective m (column ys) X (column v1) b1
  + (1 - t) * Torch.objective m (column ys) X (column v2) b2
  <= Torch.objective m (column ys) X (column (Props.mix t v1 v2))
       (t * b1 + (1 - t) * b2).
Proof.
  intros Ht Hlen.
  unfold Torch.objective, Torch.log_likelihood, Torch.regularization.
  rewrite !matmul_badd_column, !col0_column, !sum_all_columns.
  unfold cp.norm1, cp.sum_squares. rewrite !sum_all_column_map.
  pose proof (inv_INR_nonneg m) as Hm.
  pose proof (likelihood_sum_concave t ys X
                (fun row => dot row v1 + b1) (fun row => dot row v2 + b2)
                (fun row => dot row (Props.mix t v1 v2) + (t * b1 + (1 - t) * b2))
                Ht) as Hll.
  assert (Hf : forall row,
             dot row (Props.mix t v1 v2) + (t * b1 + (1 - t) * b2)
             = t * (dot row v1 + b1) + (1 - t) * (dot row v2 + b2))
    by (intros row; rewrite dot_mix by exact Hlen; ring).
  specialize (Hll Hf).
  pose proof (norm_l1_mix t v1 v2 Ht Hlen) as Hn1.
  pose proof (sum_squares_mix t v1 v2 Ht Hlen) as Hn2.
  nra.
Qed.

(** X4. The problem handed to the layer is a convex problem: its
    objective is concave in [(a, b)].  For every training array, every
    labels, and every two points [(a1, b1)], [(a2, b2)] of one dimension,
    the objective at a point of the segment between them is at least the
    corresponding mean of its values at the end points; in the TensorFlow
    notebook this holds for all values of the [nonneg] parameters. *)
Theorem X4_objective_concave :
  forall (m : nat) (ytrain : list Z) (X : matrix) (t b1 b2 lambda1 lambda2 : R)
         (v1 v2 : list R),
    0 <= t <= 1 ->
    length v1 = length v2 ->
    length X = m ->
    0 <= lambda1 -> 0 <= lambda2 ->
    (t * cp.gain (Torch.prob m (newaxis ytrain) X) (column v1) b1
     + (1 - t) * cp.gain (Torch.prob m (newaxis ytrain) X) (column v2) b2
     <= cp.gain (Torch.prob m (newaxis ytrain) X)
          (column (Props.mix t v1 v2)) (t * b1 + (1 - t) * b2))
    /\ (t * cp.gain (TF.prob m (newaxis ytrain) (X, [[lambda1]], [[lambda2]]))
              (column v1) b1
        + (1 - t) * cp.gain (TF.prob m (newaxis ytrain) (X, [[lambda1]], [[lambda2]]))
                      (column v2) b2
        <= cp.gain (TF.prob m (newaxis ytrain) (X, [[lambda1]], [[lambda2]]))
             (column (Props.mix t v1 v2)) (t * b1 + (1 - t) * b2)).
Proof.
  intros m ytrain X t b1 b2 l1 l2 v1 v2 Ht Hlen Hm Hl1 Hl2.
  split; [exact (torch_objective_concave m (map IZR ytrain) X t b1 b2 v1 v2 Ht Hlen)|].
  unfold cp.gain, TF.prob, cp.Problem. cbn [cp.objective].
  unfold TF.objective, TF.regularization. unfold entry. cbn [nth].
  rewrite !(tf_log_likelihood_torch m _ X _ _ Hm).
  unfold Torch.log_likelihood, newaxis.
  rewrite !matmul_badd_column, !col0_column, !sum_all_columns.
  unfold cp.norm1, cp.sum_squares. rewrite !sum_all_column_map.
  pose proof (inv_INR_nonneg m) as Hinv.
  pose proof (likelihood_sum_concave t (map IZR ytrain) X
                (fun row => dot row v1 + b1) (fun row => dot row v2 + b2)
                (fun row => dot row (Props.mix t v1 v2) + (t * b1 + (1 - t) * b2))
                Ht) as Hll.
  assert (Hf : forall row,
             dot row (Props.mix t v1 v2) + (t * b1 + (1 - t) * b2)
             = t * (dot row v1 + b1) + (1 - t) * (dot row v2 + b2))
    by (intros row; rewrite dot_mix by exact Hlen; ring).
  specialize (Hll Hf).
  pose proof (norm_l1_mix t v1 v2 Ht Hlen) as Hn1.
  pose proof (sum_squares_mix t v1 v2 Ht Hlen) as Hn2.
  nra.
Qed.

Lemma X4_witness :
  0 <= 1 / 2 <= 1
  /\ 1 / 2 * cp.gain (Torch.prob 1 (newaxis [1%Z]) [[1; 2]]) (column [1; 0]) 0
     + (1 - 1 / 2) * cp.gain (Torch.prob 1 (newaxis [1%Z]) [[1; 2]]) (column [0; 1]) 1
     <= cp.gain (Torch.prob 1 (newaxis [1%Z]) [[1; 2]])
          (column (Props.mix (1 / 2) [1; 0] [0; 1])) (1 / 2 * 0 + (1 - 1 / 2) * 1).
Proof.
  assert (Ht : 0 <= 1 / 2 <= 1) by lra.
  split; [exact Ht|].
  refine (proj1 (X4_objective_concave 1 [1%Z] [[1; 2]] (1 / 2) 0 1 0.1 0.1
                   [1; 0] [0; 1] Ht eq_refl eq_refl _ _)); lra.
Defined.

(** ** The loss of the PyTorch notebook (cell 3) *)





(** ** The whole notebooks on the libraries *)

Lemma set_np_rng_mk {L} (g r1 r2 r3 : rng L) hp fg fl sc :
  set_np_rng g (mk_world r1 r2 r3 hp fg fl sc) = mk_world g r2 r3 hp fg fl sc.
Proof. reflexivity. Qed.

Lemma set_torch_rng_mk {L} (g r1 r2 r3 : rng L) hp fg fl sc :
  set_torch_rng g (mk_world r1 r2 r3 hp fg fl sc) = mk_world r1 g r3 hp fg fl sc.
Proof. reflexivity. Qed.

Lemma set_tf_rng_mk {L} (g r1 r2 r3 : rng L) hp fg fl sc :
  set_tf_rng g (mk_world r1 r2 r3 hp fg fl sc) = mk_world r1 r2 g hp fg fl sc.
Proof. reflexivity. Qed.

Lemma set_heap_mk {L} (r1 r2 r3 : rng L) hp' hp fg fl sc :
  set_heap hp' (mk_world r1 r2 r3 hp fg fl sc) = mk_world r1 r2 r3 hp' fg fl sc.
Proof. reflexivity. Qed.

Lemma set_figure_mk {L} (r1 r2 r3 : rng L) fg' hp fg fl sc :
  set_figure fg' (mk_world r1 r2 r3 hp fg fl sc) = mk_world r1 r2 r3 hp fg' fl sc.
Proof. reflexivity. Qed.

Lemma draw_mk {L} (r1 r2 r3 : rng L) a hp fg fl sc :
  draw a (mk_world r1 r2 r3 hp fg fl sc) = mk_world r1 r2 r3 hp (fg ++ [a]) fl sc.
Proof. reflexivity. Qed.

Lemma save_mk {L} (r1 r2 r3 : rng L) fname hp fg fl sc :
  save fname (mk_world r1 r2 r3 hp fg fl sc)
  = mk_world r1 r2 r3 hp fg (<[fname := fg]> fl) sc.
Proof. reflexivity. Qed.

Lemma show_mk {L} (r1 r2 r3 : rng L) hp fg fl sc :
  show (mk_world r1 r2 r3 hp fg fl sc) = mk_world r1 r2 r3 hp [] fl (sc ++ [fg]).
Proof. reflexivity. Qed.

Ltac world_norm :=
  repeat first
    [ rewrite set_np_rng_mk | rewrite set_torch_rng_mk | rewrite set_tf_rng_mk
    | rewrite set_heap_mk | rewrite set_figure_mk | rewrite draw_mk
    | rewrite save_mk | rewrite show_mk ].

Section Whole.

Variable L : libraries.

Lemma std_arrows (X G : matrix) (st : style) (xs : list nat) (w : world L) :
  interp (std L)
    (for_each xs (fun i =>
       Call (plt_arrow (entry X i 0) (entry X i 1) (entry G i 0) (entry G i 1) st)
            Ret)) w
  = (Ok tt,
     set_figure
       (figure w ++ map (fun i => Arrow (entry X i 0) (entry X i 1)
                                        (entry G i 0) (entry G i 1) st) xs) w).
Proof.
  revert w. induction xs as [|i xs IH]; intros w.
  - cbn [for_each interp map]. rewrite app_nil_r. destruct w. reflexivity.
  - cbn [for_each bind interp std]. rewrite IH.
    destruct w. cbn [draw set_figure figure map]. rewrite <- app_assoc. reflexivity.
Qed.

(** The run of the PyTorch notebook, as a function of what the libraries
    return. *)
Lemma torch_notebook_std (r1 r2 r3 : rng L) (hp : list tensor) (fg : list artist)
  (fl : gmap string (list artist)) (sc : list (list artist)) :
  interp (std L) (Torch.notebook (solve L)) (mk_world r1 r2 r3 hp fg fl sc)
  = match sk_make_blobs L N n centers cluster_std (seeded L 0) with
    | (Raised ex, g1) => (Raised ex, mk_world g1 (seeded L 0) r3 hp fg fl sc)
    | (Ok (X, y), g1) =>
        match sk_train_test_split L X y test_size g1 with
        | (Raised ex, g2) => (Raised ex, mk_world g2 (seeded L 0) r3 hp fg fl sc)
        | (Ok (Xtr, Xte, ytr, yte), g2) =>
            match solver_error L (Torch.prob (length Xtr) (newaxis ytr) Xtr) with
            | Some ex =>
                (Raised ex,
                 mk_world g2 (seeded L 0) r3
                   (hp ++ Chart.tensors Xtr Xte ytr yte None) fg fl sc)
            | None =>
                match sk_lr_fit L "lbfgs" Xte yte with
                | Raised ex =>
                    (Raised ex,
                     mk_world g2 (seeded L 0) r3
                       (hp ++ Chart.tensors Xtr Xte ytr yte
                                (Some (Chart.torch_grad L Xtr Xte ytr yte)))
                       fg fl sc)
                | Ok reference =>
                    (Ok tt,
                     mk_world g2 (seeded L 0) r3
                       (hp ++ Chart.tensors Xtr Xte ytr yte
                                (Some (Chart.torch_grad L Xtr Xte ytr yte)))
                       []
                       (<["data_poisoning.pdf"%string :=
                            Chart.torch Xtr ytr (Chart.torch_grad L Xtr Xte ytr yte)
                              (solve L (Torch.prob (length Xtr) (newaxis ytr) Xtr))
                              reference]> fl)
                       (sc ++ [Chart.torch Xtr ytr (Chart.torch_grad L Xtr Xte ytr yte)
                                 (solve L (Torch.prob (length Xtr) (newaxis ytr) Xtr))
                                 reference]))
                end
            end
        end
    end.
Proof.
  unfold Torch.notebook. rewrite interp_bind.
  unfold Torch.cell2. rewrite interp_bind, torch_generate_data_std.
  destruct (sk_make_blobs L N n centers cluster_std (seeded L 0))
    as [[[X y]|ex] g1]; [|reflexivity].
  destruct (sk_train_test_split L X y test_size g1)
    as [[[[[Xtr Xte] ytr] yte]|ex] g2]; [|reflexivity].
  unfold call. cbn [bind]. heap_norm.
  rewrite interp_bind. unfold Torch.cell3, call.
  cbn [bind Torch.e_Xtrain Torch.e_Xtest Torch.e_ytrain Torch.e_ytest Torch.e_m
       Torch.e_fit_logreg].
  heap_norm.
  destruct (solver_error L (Torch.prob (length Xtr) (newaxis ytr) Xtr)) as [ex|];
    [reflexivity|].
  destruct (solve L (Torch.prob (length Xtr) (newaxis ytr) Xtr)) as [a_tch b_tch].
  heap_norm.
  unfold Torch.cell4, call.
  cbn [bind Torch.e_Xtrain Torch.e_Xtest Torch.e_ytrain Torch.e_ytest Torch.e_m
       Torch.e_fit_logreg Torch.e_a_tch Torch.e_b_tch Torch.e_loss
       Torch.e_Xtrain_grad].
  heap_norm.
  destruct (sk_lr_fit L "lbfgs" Xte yte) as [[coef intercept]|ex]; [|reflexivity].
  heap_norm.
  rewrite interp_bind, std_arrows.
  cbn [interp std draw save show set_figure set_heap set_np_rng set_torch_rng
       set_tf_rng figure heap files screen np_rng torch_rng tf_rng app fst snd].
  world_norm.
  unfold Chart.torch, Chart.scatters, Chart.arrows, Chart.line, Chart.grid,
    Chart.torch_grad, Chart.tensors.
  cbn [fst snd app].
  repeat rewrite <- app_assoc. cbn [app].
  reflexivity.
Qed.

(** The run of the TensorFlow notebook, as a function of what the
    libraries return. *)
Lemma tf_notebook_std (r1 r2 r3 : rng L) (hp : list tensor) (fg : list artist)
  (fl : gmap string (list artist)) (sc : list (list artist)) :
  interp (std L) (TF.notebook (solve L)) (mk_world r1 r2 r3 hp fg fl sc)
  = match sk_make_blobs L N n centers cluster_std (seeded L 0) with
    | (Raised ex, g1) => (Raised ex, mk_world g1 r2 (seeded L 0) hp fg fl sc)
    | (Ok (X, y), g1) =>
        match sk_train_test_split L X y test_size g1 with
        | (Raised ex, g2) => (Raised ex, mk_world g2 r2 (seeded L 0) hp fg fl sc)
        | (Ok (Xtr, Xte, ytr, yte), g2) =>
            match solver_error L
                    (TF.prob (length Xtr) (newaxis ytr)
                       (Xtr, [[TF.lambda1_tf]], [[TF.lambda2_tf]])) with
            | Some ex => (Raised ex, mk_world g2 r2 (seeded L 0) hp fg fl sc)
            | None =>
                match sk_lr_fit L "lbfgs" Xte yte with
                | Raised ex => (Raised ex, mk_world g2 r2 (seeded L 0) hp fg fl sc)
                | Ok reference =>
                    (Ok tt,
                     mk_world g2 r2 (seeded L 0) hp [] fl
                       (sc ++ [Chart.tf Xtr ytr (Chart.tf_grad L Xtr Xte ytr yte)
                                 (solve L
                                    (TF.prob (length Xtr) (newaxis ytr)
                                       (Xtr, [[TF.lambda1_tf]], [[TF.lambda2_tf]])))
                                 reference]))
                end
            end
        end
    end.
Proof.
  unfold TF.notebook. rewrite interp_bind.
  unfold TF.cell2. rewrite interp_bind, tf_generate_data_std.
  destruct (sk_make_blobs L N n centers cluster_std (seeded L 0))
    as [[[X y]|ex] g1]; [|reflexivity].
  destruct (sk_train_test_split L X y test_size g1)
    as [[[[[Xtr Xte] ytr] yte]|ex] g2]; [|reflexivity].
  unfold call. cbn [bind]. heap_norm. world_norm.
  rewrite interp_bind. unfold TF.cell3, call.
  cbn [bind TF.e_Xtrain TF.e_Xtest TF.e_ytrain TF.e_ytest TF.e_m
       TF.e_fit_logreg TF.e_lambda1_tf TF.e_lambda2_tf].
  heap_norm.
  set (p := TF.prob (length Xtr) (newaxis ytr)
              (Xtr, [[TF.lambda1_tf]], [[TF.lambda2_tf]])).
  repeat match goal with
         | |- context [solver_error L ?q] =>
             progress change (solver_error L q) with (solver_error L p)
         | |- context [solve L ?q] =>
             progress change (solve L q) with (solve L p)
         end.
  destruct (solver_error L p) as [ex|]; [reflexivity|].
  destruct (solve L p) as [slope icpt] eqn:Hs.
  heap_norm.
  unfold TF.cell4, call.
  cbn [bind TF.e_Xtrain TF.e_Xtest TF.e_ytrain TF.e_ytest TF.e_m
       TF.e_fit_logreg TF.e_lambda1_tf TF.e_lambda2_tf TF.e_slope TF.e_intercept
       TF.e_test_loss TF.e_Xtrain_grad].
  heap_norm.
  destruct (sk_lr_fit L "lbfgs" Xte yte) as [[coef intercept]|ex]; [|reflexivity].
  heap_norm.
  rewrite interp_bind, std_arrows.
  cbn [interp std draw save show set_figure set_heap set_np_rng set_torch_rng
       set_tf_rng figure heap files screen np_rng torch_rng tf_rng app fst snd].
  world_norm.
  unfold Chart.tf, Chart.scatters, Chart.arrows, Chart.line, Chart.grid,
    Chart.tf_grad.
  cbn [fst snd app].
  repeat rewrite <- app_assoc. cbn [app].
  reflexivity.
Qed.

End Whole.

Lemma arrows_length (X G : matrix) (st : style) :
  length (Chart.arrows X G st) = length X.
Proof. unfold Chart.arrows. rewrite length_map, length_seq. reflexivity. Qed.

Lemma arrows_lookup (X G : matrix) (st : style) (i : nat) :
  (i < length X)%nat ->
  Chart.arrows X G st !! i
  = Some (Arrow (entry X i 0) (entry X i 1) (entry G i 0) (entry G i 1) st).
Proof.
  intros Hi. unfold Chart.arrows.
  rewrite list_lookup_fmap, lookup_seq_lt by exact Hi. reflexivity.
Qed.


Lemma not_snoc_self {A : Type} (l : list A) (x : A) : l <> l ++ [x].
Proof.
  intros H. apply (f_equal length) in H. rewrite length_app in H. cbn in H. lia.
Qed.

(** X6. A run of the PyTorch notebook that returns has shown one figure
    and saved that same figure as [data_poisoning.pdf]; the figure holds
    the two scatters, one arrow per training point, drawn from the point
    along the row of [Xtrain.grad] of that point, the limits, the line of
    the trained classifier, the line of the classifier that scikit-learn
    fits on the test set, and the legend. *)
Theorem X6_torch_run_saves_the_chart_it_shows (L : libraries) (w w' : world L) :
  interp (std L) (Torch.notebook (solve L)) w = (Ok tt, w') ->
  exists Xtr Xte ytr yte G reference chart,
    chart = Chart.torch Xtr ytr G
              (solve L (Torch.prob (length Xtr) (newaxis ytr) Xtr)) reference
    /\ screen w' = screen w ++ [chart]
    /\ files w' = <["data_poisoning.pdf"%string := chart]> (files w)
    /\ figure w' = []
    /\ heap w' = heap w ++ Chart.tensors Xtr Xte ytr yte (Some G)
    /\ sk_lr_fit L "lbfgs" Xte yte = Ok reference
    /\ length chart = (length Xtr + 7)%nat
    /\ forall i, (i < length Xtr)%nat ->
         chart !! (2 + i)%nat
         = Some (Arrow (entry Xtr i 0) (entry Xtr i 1) (entry G i 0) (entry G i 1)
                       no_style).
Proof.
  destruct w as [r1 r2 r3 hp fg fl sc]. rewrite torch_notebook_std.
  destruct (sk_make_blobs L N n centers cluster_std (seeded L 0))
    as [[[X y]|ex] g1]; [|discriminate].
  destruct (sk_train_test_split L X y test_size g1)
    as [[[[[Xtr Xte] ytr] yte]|ex] g2]; [|discriminate].
  destruct (solver_error L (Torch.prob (length Xtr) (newaxis ytr) Xtr));
    [discriminate|].
  destruct (sk_lr_fit L "lbfgs" Xte yte) as [reference|ex] eqn:Hfit; [|discriminate].
  intros H. injection H as <-.
  exists Xtr, Xte, ytr, yte, (Chart.torch_grad L Xtr Xte ytr yte), reference.
  eexists. split; [reflexivity|]. cbn [screen files figure heap].
  repeat (split; [reflexivity|]). split; [exact Hfit|]. split.
  - unfold Chart.torch, Chart.scatters. rewrite !length_app, arrows_length.
    cbn [length]. lia.
  - intros i Hi. unfold Chart.torch, Chart.scatters. cbn [app Nat.add].
    rewrite !lookup_cons. rewrite lookup_app_l by (rewrite arrows_length; exact Hi).
    apply arrows_lookup, Hi.
Qed.

Lemma X6_witness :
  exists chart,
    screen (snd (interp (std Toy.lib) (Torch.notebook (solve Toy.lib)) Toy.w0))
    = screen Toy.w0 ++ [chart]
    /\ files (snd (interp (std Toy.lib) (Torch.notebook (solve Toy.lib)) Toy.w0))
       = <["data_poisoning.pdf"%string := chart]> (files Toy.w0).
Proof.
  assert (Hrun : interp (std Toy.lib) (Torch.notebook (solve Toy.lib)) Toy.w0
                 = (Ok tt, snd (interp (std Toy.lib) (Torch.notebook (solve Toy.lib))
                                  Toy.w0)))
    by (apply run_returns; reflexivity).
  destruct (X6_torch_run_saves_the_chart_it_shows Toy.lib Toy.w0 _ Hrun)
    as (Xtr & Xte & ytr & yte & G & reference & chart & _ & H2 & H3 & _).
  exists chart. split; [exact H2|exact H3].
Defined.

(** X7. A run of the TensorFlow notebook that returns has shown one
    figure and done nothing else to the process: no file is written, no
    tensor of torch is made, torch's generator is untouched.  The figure
    has one black arrow per training point, drawn from the point along
    the row of the gradient that the tape returns. *)
Theorem X7_tf_run_only_shows_the_chart (L : libraries) (w w' : world L) :
  interp (std L) (TF.notebook (solve L)) w = (Ok tt, w') ->
  exists Xtr Xte ytr yte reference chart,
    chart = Chart.tf Xtr ytr (Chart.tf_grad L Xtr Xte ytr yte)
              (solve L (TF.prob (length Xtr) (newaxis ytr)
                          (Xtr, [[TF.lambda1_tf]], [[TF.lambda2_tf]])))
              reference
    /\ screen w' = screen w ++ [chart]
    /\ files w' = files w
    /\ figure w' = []
    /\ heap w' = heap w
    /\ torch_rng w' = torch_rng w
    /\ sk_lr_fit L "lbfgs" Xte yte = Ok reference
    /\ length chart = (length Xtr + 7)%nat
    /\ forall i, (i < length Xtr)%nat ->
         chart !! (2 + i)%nat
         = Some (Arrow (entry Xtr i 0) (entry Xtr i 1)
                       (entry (Chart.tf_grad L Xtr Xte ytr yte) i 0)
                       (entry (Chart.tf_grad L Xtr Xte ytr yte) i 1)
                       (mk_style None None None (Some "black"%string) None)).
Proof.
  destruct w as [r1 r2 r3 hp fg fl sc]. rewrite tf_notebook_std.
  destruct (sk_make_blobs L N n centers cluster_std (seeded L 0))
    as [[[X y]|ex] g1]; [|discriminate].
  destruct (sk_train_test_split L X y test_size g1)
    as [[[[[Xtr Xte] ytr] yte]|ex] g2]; [|discriminate].
  destruct (solver_error L _); [discriminate|].
  destruct (sk_lr_fit L "lbfgs" Xte yte) as [reference|ex] eqn:Hfit; [|discriminate].
  intros H. injection H as <-.
  exists Xtr, Xte, ytr, yte, reference.
  eexists. split; [reflexivity|]. cbn [screen files figure heap torch_rng].
  repeat (split; [reflexivity|]). split; [exact Hfit|]. split.
  - unfold Chart.tf, Chart.scatters. rewrite !length_app, arrows_length.
    cbn [length]. lia.
  - intros i Hi. unfold Chart.tf, Chart.scatters. cbn [app Nat.add].
    rewrite !lookup_cons. rewrite lookup_app_l by (rewrite arrows_length; exact Hi).
    apply arrows_lookup, Hi.
Qed.

Lemma X7_witness :
  exists chart,
    screen (snd (interp (std Toy.lib) (TF.notebook (solve Toy.lib)) Toy.w0))
    = screen Toy.w0 ++ [chart]
    /\ files (snd (interp (std Toy.lib) (TF.notebook (solve Toy.lib)) Toy.w0))
       = files Toy.w0.
Proof.
  assert (Hrun : interp (std Toy.lib) (TF.notebook (solve Toy.lib)) Toy.w0
                 = (Ok tt, snd (interp (std Toy.lib) (TF.notebook (solve Toy.lib))
                                  Toy.w0)))
    by (apply run_returns; reflexivity).
  destruct (X7_tf_run_only_shows_the_chart Toy.lib Toy.w0 _ Hrun)
    as (Xtr & Xte & ytr & yte & reference & chart & _ & H2 & H3 & _).
  exists chart. split; [exact H2|exact H3].
Defined.





(** X10. What a notebook does is the same from every state of the
    process: the generators are seeded and the tensors made anew, so a run
    has the same outcome and shows the same figure whatever ran before,
    and so when the notebook is run again. *)
Theorem X10_run_does_not_depend_on_the_state_before (L : libraries)
  (w1 w2 : world L) :
  (interp (std L) (Torch.notebook (solve L)) w1).1
  = (interp (std L) (Torch.notebook (solve L)) w2).1
  /\ Chart.shown (interp (std L) (Torch.notebook (solve L)) w1)
     = Chart.shown (interp (std L) (Torch.notebook (solve L)) w2)
  /\ (interp (std L) (TF.notebook (solve L)) w1).1
     = (interp (std L) (TF.notebook (solve L)) w2).1
  /\ Chart.shown (interp (std L) (TF.notebook (solve L)) w1)
     = Chart.shown (interp (std L) (TF.notebook (solve L)) w2)
  /\ Chart.shown (interp (std L) (Torch.notebook (solve L))
                    (interp (std L) (Torch.notebook (solve L)) w1).2)
     = Chart.shown (interp (std L) (Torch.notebook (solve L)) w1).
Proof.
  assert (HT : forall u v : world L,
    (interp (std L) (Torch.notebook (solve L)) u).1
    = (interp (std L) (Torch.notebook (solve L)) v).1
    /\ Chart.shown (interp (std L) (Torch.notebook (solve L)) u)
       = Chart.shown (interp (std L) (Torch.notebook (solve L)) v)).
  { intros [a1 a2 a3 hp1 fg1 fl1 sc1] [b1 b2 b3 hp2 fg2 fl2 sc2].
    unfold Chart.shown. rewrite !torch_notebook_std.
    destruct (sk_make_blobs L N n centers cluster_std (seeded L 0))
      as [[[X y]|ex] g1]; [|split; reflexivity].
    destruct (sk_train_test_split L X y test_size g1)
      as [[[[[Xtr Xte] ytr] yte]|ex] g2]; [|split; reflexivity].
    destruct (solver_error L _); [split; reflexivity|].
    destruct (sk_lr_fit L "lbfgs" Xte yte); [|split; reflexivity].
    cbn [fst snd screen]. rewrite !last_snoc. split; reflexivity. }
  assert (HF : forall u v : world L,
    (interp (std L) (TF.notebook (solve L)) u).1
    = (interp (std L) (TF.notebook (solve L)) v).1
    /\ Chart.shown (interp (std L) (TF.notebook (solve L)) u)
       = Chart.shown (interp (std L) (TF.notebook (solve L)) v)).
  { intros [a1 a2 a3 hp1 fg1 fl1 sc1] [b1 b2 b3 hp2 fg2 fl2 sc2].
    unfold Chart.shown. rewrite !tf_notebook_std.
    destruct (sk_make_blobs L N n centers cluster_std (seeded L 0))
      as [[[X y]|ex] g1]; [|split; reflexivity].
    destruct (sk_train_test_split L X y test_size g1)
      as [[[[[Xtr Xte] ytr] yte]|ex] g2]; [|split; reflexivity].
    destruct (solver_error L _); [split; reflexivity|].
    destruct (sk_lr_fit L "lbfgs" Xte yte); [|split; reflexivity].
    cbn [fst snd screen]. rewrite !last_snoc. split; reflexivity. }
  split; [apply HT|]. split; [apply HT|]. split; [apply HF|]. split; [apply HF|].
  apply HT.
Qed.


(** ** The layer's problem has one optimal point *)

Lemma sum_squares_mid (u v : list R) :
  length u = length v ->
  rsum (map (fun x => x * x) (Props.mix (1 / 2) u v))
  = 1 / 2 * rsum (map (fun x => x * x) u)
    + (1 - 1 / 2) * rsum (map (fun x => x * x) v)
    - 1 / 4 * rsum (zip_with (fun x y => (x - y) * (x - y)) u v).
Proof.
  unfold Props.mix. revert v.
  induction u as [|x u IH]; intros [|y v] Hlen; try discriminate;
    cbn [zip_with map]; rewrite ?rsum_nil, ?rsum_cons; [lra|].
  rewrite (IH v) by (cbn in Hlen; lia). lra.
Qed.

Lemma rsum_sq_diff_nonneg (u v : list R) :
  0 <= rsum (zip_with (fun x y => (x - y) * (x - y)) u v).
Proof.
  revert v. induction u as [|x u IH]; intros [|y v];
    cbn [zip_with]; rewrite ?rsum_nil, ?rsum_cons; try lra.
  specialize (IH v). pose proof (Rle_0_sqr (x - y)) as Hsq. unfold Rsqr in Hsq. lra.
Qed.

Lemma rsum_sq_diff_zero (u v : list R) :
  length u = length v ->
  rsum (zip_with (fun x y => (x - y) * (x - y)) u v) <= 0 -> u = v.
Proof.
  revert v. induction u as [|x u IH]; intros [|y v] Hlen; try discriminate;
    [reflexivity|].
  cbn [zip_with]. rewrite rsum_cons. intros H.
  pose proof (rsum_sq_diff_nonneg u v) as Hrest.
  pose proof (Rle_0_sqr (x - y)) as Hsq. unfold Rsqr in Hsq.
  assert (Hxy : (x - y) * (x - y) = 0) by lra.
  apply Rmult_integral in Hxy.
  assert (x = y) by (destruct Hxy; lra). subst y.
  f_equal. apply IH; [cbn in Hlen; lia|lra].
Qed.

(** [z |-> log(1 + exp z)] is strictly convex. *)
Lemma logistic1_mid_strict (x y : R) :
  x <> y ->
  cp.logistic1 (1 / 2 * x + (1 - 1 / 2) * y)
  < 1 / 2 * cp.logistic1 x + (1 - 1 / 2) * cp.logistic1 y.
Proof.
  intros Hxy. unfold cp.logistic1.
  set (c := 1 / 2 * x + (1 - 1 / 2) * y).
  pose proof (exp_pos c) as Hc.
  pose proof (exp_pos x) as Hx. pose proof (exp_pos y) as Hy.
  pose proof (exp_pos (x / 2)) as Hx2. pose proof (exp_pos (y / 2)) as Hy2.
  assert (Ex : exp x = exp (x / 2) * exp (x / 2))
    by (rewrite <- exp_plus; f_equal; lra).
  assert (Ey : exp y = exp (y / 2) * exp (y / 2))
    by (rewrite <- exp_plus; f_equal; lra).
  assert (Ec : exp c = exp (x / 2) * exp (y / 2))
    by (rewrite <- exp_plus; f_equal; unfold c; lra).
  assert (Hne : exp (x / 2) <> exp (y / 2)).
  { intros E. apply exp_inv in E. lra. }
  assert (Hlt : (1 + exp c) * (1 + exp c) < (1 + exp x) * (1 + exp y)).
  { assert (0 < (exp (x / 2) - exp (y / 2)) * (exp (x / 2) - exp (y / 2))).
    { destruct (Rtotal_order (exp (x / 2)) (exp (y / 2))) as [H|[H|H]];
        [nra|contradiction|nra]. }
    nra. }
  apply ln_increasing in Hlt; [|nra].
  rewrite !ln_mult in Hlt by lra. lra.
Qed.

Lemma likelihood_sum_mid_strict (ys : list R) (X : matrix) (f1 f2 f : list R -> R) :
  (forall row, f row = 1 / 2 * f1 row + (1 - 1 / 2) * f2 row) ->
  (forall row, f1 row <> f2 row) ->
  ys <> [] -> X <> [] ->
  1 / 2 * rsum (zip_with (fun y z => y * z - cp.logistic1 z) ys (map f1 X))
  + (1 - 1 / 2) * rsum (zip_with (fun y z => y * z - cp.logistic1 z) ys (map f2 X))
  < rsum (zip_with (fun y z => y * z - cp.logistic1 z) ys (map f X)).
Proof.
  intros Hf Hne Hys HX.
  destruct ys as [|y ys]; [contradiction|]. destruct X as [|row X]; [contradiction|].
  cbn [map zip_with]. rewrite !rsum_cons.
  assert (Ht : 0 <= 1 / 2 <= 1) by lra.
  pose proof (likelihood_sum_concave (1 / 2) ys X f1 f2 f Ht Hf) as Hrest.
  pose proof (logistic1_mid_strict (f1 row) (f2 row) (Hne row)) as Hhead.
  rewrite (Hf row). lra.
Qed.

(** The objective of the PyTorch notebook on column arrays. *)
Lemma torch_gain_column (m : nat) (ys : list R) (X : matrix) (v : list R) (b : R) :
  cp.gain (Torch.prob m (column ys) X) (column v) b
  = 1 / INR m
    * rsum (zip_with (fun y z => y * z - cp.logistic1 z) ys
              (map (fun row => dot row v + b) X))
    - 0.1 * rsum (map Rabs v) - 0.1 * rsum (map (fun x => x * x) v).
Proof.
  unfold cp.gain, Torch.prob, cp.Problem. cbn [cp.objective].
  unfold Torch.objective, Torch.log_likelihood, Torch.regularization.
  rewrite !matmul_badd_column, !col0_column, !sum_all_columns.
  unfold cp.norm1, cp.sum_squares. rewrite !sum_all_column_map. lra.
Qed.

Lemma torch_prob_feasible (m : nat) (Y X a : matrix) (b : R) :
  cp.feasible (Torch.prob m Y X) a b.
Proof. constructor. Qed.

Lemma torch_optimal_point_unique (n m : nat) (ytrain : list Z) (X a1 a2 : matrix)
  (b1 b2 : R) :
  (0 < m)%nat -> X <> [] -> ytrain <> [] ->
  cp.solves n (Torch.prob m (newaxis ytrain) X) a1 b1 ->
  cp.solves n (Torch.prob m (newaxis ytrain) X) a2 b2 ->
  a1 = a2 /\ b1 = b2.
Proof.
  intros Hm HX Hy
    [(v1 & Hv1 & ->) [_ Hmax1]] [(v2 & Hv2 & ->) [_ Hmax2]].
  pose proof (Hmax1 v2 b2 Hv2 (torch_prob_feasible _ _ _ _ _)) as H21.
  pose proof (Hmax2 v1 b1 Hv1 (torch_prob_feasible _ _ _ _ _)) as H12.
  assert (Hlen : length v1 = length v2) by congruence.
  assert (Hmidlen : length (Props.mix (1 / 2) v1 v2) = n)
    by (rewrite length_mix by exact Hlen; exact Hv1).
  pose proof (Hmax1 (Props.mix (1 / 2) v1 v2) (1 / 2 * b1 + (1 - 1 / 2) * b2)
                Hmidlen (torch_prob_feasible _ _ _ _ _)) as Hmid.
  unfold newaxis in *. rewrite !torch_gain_column in *.
  assert (Ht : 0 <= 1 / 2 <= 1) by lra.
  assert (Hinv : 0 < 1 / INR m).
  { apply Rdiv_lt_0_compat; [lra|]. apply lt_0_INR. exact Hm. }
  assert (Hf : forall row,
             dot row (Props.mix (1 / 2) v1 v2) + (1 / 2 * b1 + (1 - 1 / 2) * b2)
             = 1 / 2 * (dot row v1 + b1) + (1 - 1 / 2) * (dot row v2 + b2))
    by (intros row; rewrite dot_mix by exact Hlen; ring).
  pose proof (likelihood_sum_concave (1 / 2) (map IZR ytrain) X
                (fun row => dot row v1 + b1) (fun row => dot row v2 + b2)
                (fun row => dot row (Props.mix (1 / 2) v1 v2)
                            + (1 / 2 * b1 + (1 - 1 / 2) * b2))
                Ht Hf) as Hll.
  pose proof (norm_l1_mix (1 / 2) v1 v2 Ht Hlen) as Hn1.
  pose proof (sum_squares_mid v1 v2 Hlen) as Hn2.
  pose proof (rsum_sq_diff_nonneg v1 v2) as Hd.
  assert (Hv : v1 = v2) by (apply rsum_sq_diff_zero; [exact Hlen|nra]).
  subst v2. split; [reflexivity|].
  destruct (Req_dec b1 b2) as [E|Hne]; [exact E|exfalso].
  assert (Hys : map IZR ytrain <> []) by (destruct ytrain; [contradiction|discriminate]).
  pose proof (likelihood_sum_mid_strict (map IZR ytrain) X
                (fun row => dot row v1 + b1) (fun row => dot row v1 + b2)
                (fun row => dot row (Props.mix (1 / 2) v1 v1)
                            + (1 / 2 * b1 + (1 - 1 / 2) * b2))
                Hf ltac:(intros row; lra) Hys HX) as Hstrict.
  nra.
Qed.

(** X12. The problem of either notebook has at most one optimal point:
    with at least one training point, two optimal points [(a1, b1)] and
    [(a2, b2)] are equal, so what the layer returns is determined by the
    training data.  ([0.1 ||a||_2^2] makes the objective strictly concave
    in [a], the logistic term strictly concave in [b].) *)
Theorem X12_optimal_point_is_unique :
  forall (n : nat) (ytrain : list Z) (Xtrain a1 a2 : matrix) (b1 b2 : R)
         (p : cp.problem),
    Xtrain <> [] -> ytrain <> [] ->
    p = Torch.prob (length Xtrain) (newaxis ytrain) Xtrain
    \/ p = TF.prob (length Xtrain) (newaxis ytrain)
             (Xtrain, [[TF.lambda1_tf]], [[TF.lambda2_tf]]) ->
    cp.solves n p a1 b1 ->
    cp.solves n p a2 b2 ->
    a1 = a2 /\ b1 = b2.
Proof.
  intros n ytrain X a1 a2 b1 b2 p HX Hy Hp H1 H2.
  assert (E : p = Torch.prob (length X) (newaxis ytrain) X).
  { destruct Hp as [->| ->]; [reflexivity|]. apply tf_prob_torch_prob. reflexivity. }
  subst p.
  apply (torch_optimal_point_unique n (length X) ytrain X a1 a2 b1 b2);
    try assumption.
  destruct X; [contradiction|cbn; lia].
Qed.

(** Two training points at the origin with the labels 1 and 0: the
    optimal point is [a = 0], [b = 0]. *)
Lemma toy_origin_solves :
  cp.solves 2 (Torch.prob 2 (newaxis [1%Z; 0%Z]) [[0; 0]; [0; 0]]) (column [0; 0]) 0.
Proof.
  split; [exists [0; 0]; split; reflexivity|].
  split; [apply torch_prob_feasible|].
  intros v' b' Hv' _. unfold newaxis. rewrite !torch_gain_column.
  destruct v' as [|x [|y [|? ?]]]; try discriminate.
  unfold dot. cbn [map zip_with INR]. rewrite !rsum_cons, !rsum_nil.
  rewrite !Rabs_R0.
  pose proof (logistic1_tangent 0 (0 * x + (0 * y + 0) + b')) as Htan.
  rewrite exp_0 in Htan.
  pose proof (Rabs_pos x). pose proof (Rabs_pos y).
  cbn [IZR IPR IPR_2] in *.
  replace (0 * 0 + (0 * 0 + 0) + 0) with 0 by ring.
  nra.
Qed.

Lemma X12_witness :
  cp.solves 2 (Torch.prob 2 (newaxis [1%Z; 0%Z]) [[0; 0]; [0; 0]]) (column [0; 0]) 0
  /\ (column [0; 0] = column [0; 0] /\ 0 = 0).
Proof.
  split; [exact toy_origin_solves|].
  apply (X12_optimal_point_is_unique 2 [1%Z; 0%Z] [[0; 0]; [0; 0]]
           (column [0; 0]) (column [0; 0]) 0 0
           (Torch.prob 2 (newaxis [1%Z; 0%Z]) [[0; 0]; [0; 0]]));
    [discriminate|discriminate|left; reflexivity
    |exact toy_origin_solves|exact toy_origin_solves].
Defined.
